(** * cementmind-api: the telemetry prediction endpoint of [main.py]

    A shallow embedding of [load_model] and [predict_telemetry] and the
    properties of the request/response contract.

    Python values are an inductive type [pyval]; Python floats are IEEE 754
    binary64 numbers ([spec_float] with precision 53 and maximal exponent
    1024); exceptions are an error type [exn] carried by [Result]; the
    module globals [model] and [artifacts] are an explicit state; the
    order of the calls on the request, of the prints and of the inference
    is kept in a trace of events. *)

From Stdlib Require Import ZArith List String Ascii Bool Lia.
From Stdlib Require Import Floats.SpecFloat.
Import ListNotations.

Open Scope string_scope.
Open Scope Z_scope.

(** ** Exceptions and results *)

(** The exception classes that the code and the builtins it calls can
    raise.  [JSONDecodeError] is a subclass of [ValueError];
    [FileNotFoundError] carries the [filename] attribute that [load_model]
    prints; [OtherException] is any further subclass of [Exception];
    [SystemExit] and [KeyboardInterrupt] derive from [BaseException] only. *)
Inductive exn : Type :=
| ValueError
| TypeError
| KeyError
| IndexError
| AttributeError
| OverflowError
| UnboundLocalError
| JSONDecodeError
| FileNotFoundError (filename : string)
| OtherException (name : string)
| SystemExit
| KeyboardInterrupt.

Inductive Result (A : Type) : Type :=
| Ok (a : A)
| Raise (e : exn).

Arguments Ok {A} a.
Arguments Raise {A} e.

Definition bind {A B : Type} (r : Result A) (k : A -> Result B) : Result B :=
  match r with
  | Ok a => k a
  | Raise e => Raise e
  end.

Notation "x <- r ;; k" := (bind r (fun x => k))
  (at level 61, r at next level, right associativity).

(** [except Exception]: everything but the two [BaseException]-only classes. *)
Definition is_Exception (e : exn) : bool :=
  match e with
  | SystemExit | KeyboardInterrupt => false
  | _ => true
  end.

(** [except (ValueError, TypeError)], subclasses included. *)
Definition is_ValueError_or_TypeError (e : exn) : bool :=
  match e with
  | ValueError | TypeError | JSONDecodeError => true
  | _ => false
  end.

(** [except FileNotFoundError]. *)
Definition is_FileNotFoundError (e : exn) : bool :=
  match e with
  | FileNotFoundError _ => true
  | _ => false
  end.

(** ** Floating-point numbers *)

Module Float64.

Definition t : Type := spec_float.

Definition prec : Z := 53.
Definition emax : Z := 1024.

Definition nan : t := S754_nan.
Definition inf (negative : bool) : t := S754_infinity negative.
Definition zero (negative : bool) : t := S754_zero negative.

Definition is_finite (x : t) : bool :=
  match x with
  | S754_zero _ | S754_finite _ _ _ => true
  | S754_infinity _ | S754_nan => false
  end.

(** The double nearest to the integer [s * m] (ties to even; beyond the
    range the result is an infinity). *)
Definition of_pos (s : bool) (m : positive) : t :=
  binary_round prec emax s m 0.

Definition of_Z (n : Z) : t := binary_normalize prec emax n 0 false.

(** The double nearest to the quotient [s * p / q]. *)
Definition of_ratio (s : bool) (p q : positive) : t :=
  let '(mz, ez, lz) := SFdiv_core_binary prec emax (Zpos p) 0 (Zpos q) 0 in
  binary_round_aux prec emax s mz ez lz.

(** The double nearest to [s * m * 10^e], the value of a decimal
    numeral with digits [m] and exponent [e]. *)
Definition of_decimal (s : bool) (m : Z) (e : Z) : t :=
  match m with
  | Zpos p =>
      if 0 <=? e then of_pos s (p * Z.to_pos (10 ^ e))
      else of_ratio s p (Z.to_pos (10 ^ (- e)))
  | _ => zero s
  end.

(** Division of [n] by [d > 0] rounded to the nearest integer, ties to
    the even one. *)
Definition div_half_even (n d : Z) : Z :=
  let (q, r) := Z.div_eucl n d in
  match 2 * r ?= d with
  | Lt => q
  | Gt => q + 1
  | Eq => if Z.even q then q else q + 1
  end.

(** [m * 2^e * 10^n] rounded to the nearest integer, ties to even. *)
Definition scaled_half_even (m : positive) (e n : Z) : Z :=
  div_half_even (Zpos m * 2 ^ Z.max e 0 * 10 ^ Z.max n 0)
                (2 ^ Z.max (- e) 0 * 10 ^ Z.max (- n) 0).

Definition NDIGITS_MAX : Z := 323.
Definition NDIGITS_MIN : Z := -308.

(** [float.__round__(x, ndigits)] with [ndigits] given: the exact value
    of [x] is rounded half to even at [ndigits] decimals and the decimal
    obtained is read back as a double.  Infinities and NaN round to
    themselves.  [None] is the overflow of the result. *)
Definition round (x : t) (ndigits : Z) : option t :=
  match x with
  | S754_finite s m e =>
      if NDIGITS_MAX <? ndigits then Some x
      else if ndigits <? NDIGITS_MIN then Some (zero s)
      else
        let r := of_decimal s (scaled_half_even m e ndigits) (- ndigits) in
        if is_finite r then Some r else None
  | _ => Some x
  end.

Definition mul (x y : t) : t := SFmul prec emax x y.

Definition div (x y : t) : t := SFdiv prec emax x y.

(** C's [rint] under the default rounding: the nearest integer as a
    double, ties to the even one; a zero result keeps the sign of [x]. *)
Definition rint (x : t) : t :=
  match x with
  | S754_finite s m e =>
      if 0 <=? e then x
      else
        match div_half_even (Zpos m) (2 ^ (- e)) with
        | Zpos n => of_pos s n
        | _ => zero s
        end
  | _ => x
  end.

End Float64.

(** ** Rounding in [numpy] *)

(** The elements of the array that a regressor of scikit-learn returns
    are [numpy.float64]; [round(v, ndigits)] on one of them is
    [ndarray.round]: the value is scaled by a power of ten, rounded to an
    integer by [rint] and scaled back, each step in binary64. *)
Module Numpy.

Fixpoint times_ten (k : nat) (x : Float64.t) : Float64.t :=
  match k with
  | O => x
  | S k' => times_ten k' (Float64.mul x (Float64.of_Z 10))
  end.

(** [power_of_ten(n)] for [n >= 0]: a constant up to [1e8], from [1e9] on
    a product by ten for each further power. *)
Definition power_of_ten (n : Z) : Float64.t :=
  if n <? 9 then Float64.of_Z (10 ^ n)
  else times_ten (Z.to_nat (n - 9)) (Float64.of_Z (10 ^ 9)).

Definition round (x : Float64.t) (decimals : Z) : Float64.t :=
  if 0 <=? decimals then
    if decimals =? 0 then Float64.rint x
    else
      let f := power_of_ten decimals in
      Float64.div (Float64.rint (Float64.mul x f)) f
  else
    let f := power_of_ten (- decimals) in
    Float64.mul (Float64.rint (Float64.div x f)) f.

(** The range of a C [int], the type of [decimals]. *)
Definition is_int (n : Z) : bool := (- 2 ^ 31 <=? n) && (n <? 2 ^ 31).

End Numpy.

(** ** Python values *)

#[local] Set Warnings "-register-all".

(** The values that [json.load] and the request can hand to the code, and
    that the model is taken to return.  A [dict] keeps insertion order and
    has [str] keys, as every JSON object and the prediction mapping do.
    [NpFloat] is a [numpy.float64], the element of a row that a regressor
    of scikit-learn predicts; [PyFloat] is the [float] of Python, which
    [json] and [float] give. *)
Inductive pyval : Type :=
| PyNone
| PyBool (b : bool)
| PyInt (n : Z)
| PyFloat (x : Float64.t)
| PyStr (s : string)
| PyList (l : list pyval)
| PyDict (d : list (string * pyval))
| NpFloat (x : Float64.t).

Definition is_None (v : pyval) : bool :=
  match v with
  | PyNone => true
  | _ => false
  end.

(** ** Text *)

(** A [str] is modelled by a [string], one [ascii] for each of its
    characters: the texts of the model are those whose characters are
    below 256.  None of the characters from 128 to 255 is a decimal digit;
    two of them, U+0085 and U+00A0, are spaces of Unicode.  The decimal
    digits and the spaces beyond 255, which [float] reads too, are outside
    the model. *)
Module Text.

Definition is_digit (c : ascii) : bool :=
  let n := nat_of_ascii c in ((48 <=? n) && (n <=? 57))%nat.

Definition digit_value (c : ascii) : Z := Z.of_nat (nat_of_ascii c) - 48.

(** The characters that [float] strips from both ends of a text: those
    of C's [isspace] (tab, line feed, vertical tab, form feed, carriage
    return, space), and the spaces of Unicode beyond ASCII, which it turns
    into a space first: the next line U+0085 and the no-break space
    U+00A0.  The separators U+001C to U+001F are not stripped. *)
Definition is_space (c : ascii) : bool :=
  let n := nat_of_ascii c in
  ((9 <=? n) && (n <=? 13) || (n =? 32) || (n =? 133) || (n =? 160))%nat.

Definition to_lower (c : ascii) : ascii :=
  let n := nat_of_ascii c in
  if ((65 <=? n) && (n <=? 90))%nat then ascii_of_nat (n + 32) else c.

Definition is_empty (s : string) : bool :=
  match s with
  | EmptyString => true
  | String _ _ => false
  end.

(** The longest prefix of decimal digits, and what follows it. *)
Fixpoint span_digits (s : string) : string * string :=
  match s with
  | String c r =>
      if is_digit c then let (d, t) := span_digits r in (String c d, t)
      else (EmptyString, s)
  | EmptyString => (EmptyString, EmptyString)
  end.

Fixpoint digits_value_from (acc : Z) (s : string) : Z :=
  match s with
  | String c r => digits_value_from (10 * acc + digit_value c) r
  | EmptyString => acc
  end.

Definition digits_value (s : string) : Z := digits_value_from 0 s.

Fixpoint lstrip (s : string) : string :=
  match s with
  | String c r => if is_space c then lstrip r else s
  | EmptyString => EmptyString
  end.

Fixpoint rstrip (s : string) : string :=
  match s with
  | String c r =>
      let r' := rstrip r in
      if is_space c && is_empty r' then EmptyString else String c r'
  | EmptyString => EmptyString
  end.

(** [sub in s] on two [str]. *)
Fixpoint contains (sub s : string) : bool :=
  String.prefix sub s ||
  match s with
  | String _ r => contains sub r
  | EmptyString => false
  end.

Definition take_sign (s : string) : bool * string :=
  match s with
  | String "-"%char r => (true, r)
  | String "+"%char r => (false, r)
  | _ => (false, s)
  end.

(** Matching of the lower-case word [t] at the head of [s], letter case
    ignored; the rest of [s] on success. *)
Fixpoint match_ci (t s : string) : option string :=
  match t with
  | EmptyString => Some s
  | String a t' =>
      match s with
      | String c r => if Ascii.eqb (to_lower c) a then match_ci t' r else None
      | EmptyString => None
      end
  end.

End Text.

(** ** The builtin [float] *)

(** PEP 515: an underscore of a numeric text stands between two digits;
    the underscores are dropped before the text is read. *)
Fixpoint remove_underscores (prev : ascii) (s : string) : option string :=
  match s with
  | EmptyString => if Ascii.eqb prev "_" then None else Some EmptyString
  | String c r =>
      if Ascii.eqb c "_" then
        if Text.is_digit prev then remove_underscores c r else None
      else if Ascii.eqb prev "_" && negb (Text.is_digit c) then None
      else option_map (String c) (remove_underscores c r)
  end.

(** The exponent part: [e] or [E], a sign, at least one digit.  Without
    a digit nothing of it is read. *)
Definition read_exponent (s : string) : Z * string :=
  match s with
  | String c r =>
      if Ascii.eqb c "e" || Ascii.eqb c "E" then
        let (neg, r1) := Text.take_sign r in
        let (ds, r2) := Text.span_digits r1 in
        if Text.is_empty ds then (0, s)
        else ((if neg then - Text.digits_value ds else Text.digits_value ds), r2)
      else (0, s)
  | EmptyString => (0, s)
  end.

(** [strtod]: sign, digits, point, digits, exponent; at least one digit
    before or after the point.  The result is the double nearest to the
    decimal read, and the unread rest. *)
Definition strtod (s : string) : option (Float64.t * string) :=
  let (neg, s1) := Text.take_sign s in
  let (ip, s2) := Text.span_digits s1 in
  let (fp, s3) :=
    match s2 with
    | String "."%char r => Text.span_digits r
    | _ => (EmptyString, s2)
    end in
  if Text.is_empty ip && Text.is_empty fp then None
  else
    let (ex, s4) := read_exponent s3 in
    Some (Float64.of_decimal neg (Text.digits_value (ip ++ fp))
                             (ex - Z.of_nat (String.length fp)), s4).

(** [inf], [infinity] and [nan] with a sign, in any letter case. *)
Definition parse_inf_or_nan (s : string) : option (Float64.t * string) :=
  let (neg, s1) := Text.take_sign s in
  match Text.match_ci "inf" s1 with
  | Some r =>
      Some (Float64.inf neg,
            match Text.match_ci "inity" r with Some r' => r' | None => r end)
  | None =>
      match Text.match_ci "nan" s1 with
      | Some r => Some (Float64.nan, r)
      | None => None
      end
  end.

Definition whole (r : option (Float64.t * string)) : option Float64.t :=
  match r with
  | Some (x, rest) => if Text.is_empty rest then Some x else None
  | None => None
  end.

(** [float(s)] on a [str]: [None] is [ValueError]. *)
Definition float_of_string (s : string) : option Float64.t :=
  match remove_underscores zero s with
  | None => None
  | Some t =>
      let t := Text.rstrip (Text.lstrip t) in
      match strtod t with
      | Some r => whole (Some r)
      | None => whole (parse_inf_or_nan t)
      end
  end.

(** [float(n)] on an [int]: the nearest double, [OverflowError] beyond
    the range. *)
Definition float_of_int (n : Z) : Result Float64.t :=
  let x := Float64.of_Z n in
  if Float64.is_finite x then Ok x else Raise OverflowError.

Definition int_of_bool (b : bool) : Z := if b then 1 else 0.

(** [float(v)]. *)
Definition py_float (v : pyval) : Result Float64.t :=
  match v with
  | PyFloat x | NpFloat x => Ok x
  | PyInt n => float_of_int n
  | PyBool b => float_of_int (int_of_bool b)
  | PyStr s =>
      match float_of_string s with
      | Some x => Ok x
      | None => Raise ValueError
      end
  | PyNone | PyList _ | PyDict _ => Raise TypeError
  end.

(** ** The builtin [round] *)

(** [int.__round__(n, ndigits)]: [n] itself when [ndigits] is not
    negative, else the nearest multiple of [10^(-ndigits)], ties to even. *)
Definition round_int (n ndigits : Z) : Z :=
  if 0 <=? ndigits then n
  else let p := 10 ^ (- ndigits) in Float64.div_half_even n p * p.

(** [round(v, ndigits)] is [v.__round__(ndigits)]: a [float] stays a
    [float], rounded on its exact value; a [numpy.float64] stays one,
    rounded as [ndarray.round] does, with [ndigits] a C [int]; a [bool] is
    an [int]; anything else has no [__round__]. *)
Definition py_round (v : pyval) (ndigits : Z) : Result pyval :=
  match v with
  | PyFloat x =>
      match Float64.round x ndigits with
      | Some r => Ok (PyFloat r)
      | None => Raise OverflowError
      end
  | NpFloat x =>
      if Numpy.is_int ndigits then Ok (NpFloat (Numpy.round x ndigits))
      else Raise OverflowError
  | PyInt n => Ok (PyInt (round_int n ndigits))
  | PyBool b => Ok (PyInt (round_int (int_of_bool b) ndigits))
  | PyNone | PyStr _ | PyList _ | PyDict _ => Raise TypeError
  end.

(** ** Subscripts, iteration and mappings *)

Definition dict : Type := list (string * pyval).

Fixpoint lookup (k : string) (d : dict) : option pyval :=
  match d with
  | [] => None
  | (k', v) :: r => if String.eqb k' k then Some v else lookup k r
  end.

(** [d[k] = v]: the value of a key already present is replaced where it
    stands, a new key goes to the end. *)
Fixpoint dict_set (k : string) (v : pyval) (d : dict) : dict :=
  match d with
  | [] => [(k, v)]
  | (k', v') :: r =>
      if String.eqb k' k then (k', v) :: r else (k', v') :: dict_set k v r
  end.

Definition keys (d : dict) : list string := map fst d.

(** [v[k]] with a [str] subscript; a scalar of [numpy] answers every
    subscript with [IndexError]. *)
Definition getitem_str (v : pyval) (k : string) : Result pyval :=
  match v with
  | PyDict d =>
      match lookup k d with
      | Some x => Ok x
      | None => Raise KeyError
      end
  | NpFloat _ => Raise IndexError
  | _ => Raise TypeError
  end.

Definition chars (s : string) : list pyval :=
  map (fun c => PyStr (String c EmptyString)) (list_ascii_of_string s).

Definition index {A : Type} (l : list A) (i : Z) : Result A :=
  let j := if i <? 0 then i + Z.of_nat (List.length l) else i in
  if j <? 0 then Raise IndexError
  else
    match nth_error l (Z.to_nat j) with
    | Some x => Ok x
    | None => Raise IndexError
    end.

(** [v[i]] with an [int] subscript; no key of a [dict] here is an [int]. *)
Definition getitem_int (v : pyval) (i : Z) : Result pyval :=
  match v with
  | PyList l => index l i
  | PyStr s => index (chars s) i
  | PyDict _ => Raise KeyError
  | NpFloat _ => Raise IndexError
  | _ => Raise TypeError
  end.

(** [iter(v)], run to its end. *)
Definition py_iter (v : pyval) : Result (list pyval) :=
  match v with
  | PyList l => Ok l
  | PyStr s => Ok (chars s)
  | PyDict d => Ok (map (fun kv => PyStr (fst kv)) d)
  | _ => Raise TypeError
  end.

Definition hashable (v : pyval) : bool :=
  match v with
  | PyList _ | PyDict _ => false
  | _ => true
  end.

(** ** Requests and responses *)

(** What the handler reads of a request: [request.method], the value of
    [request.get_json(silent=True)] ([None] when the body is absent or no
    JSON, or the JSON [null]) and [request.args], the query parameters in
    their order. *)
Record request : Type := {
  method : string;
  get_json : pyval;
  args : list (string * string)
}.

(** [request_data] is the parsed JSON body or the [MultiDict] of the
    query. *)
Inductive request_data : Type :=
| JsonData (v : pyval)
| ArgsData (a : list (string * string)).

Definition data_is_None (d : request_data) : bool :=
  match d with
  | JsonData v => is_None v
  | ArgsData _ => false
  end.

Fixpoint first_value (k : string) (a : list (string * string)) : option string :=
  match a with
  | [] => None
  | (k', v) :: r => if String.eqb k' k then Some v else first_value k r
  end.

Definition or_None (o : option pyval) : pyval :=
  match o with
  | Some v => v
  | None => PyNone
  end.

(** [request_data.get(key)]: [dict.get] on a JSON object, [MultiDict.get]
    (the first value of the key) on the query; both hash the key first; a
    JSON body that is no object has no [get]. *)
Definition data_get (d : request_data) (key : pyval) : Result pyval :=
  match d with
  | JsonData (PyDict kv) =>
      if hashable key then
        Ok (match key with
            | PyStr k => or_None (lookup k kv)
            | _ => PyNone
            end)
      else Raise TypeError
  | JsonData _ => Raise AttributeError
  | ArgsData a =>
      if hashable key then
        Ok (match key with
            | PyStr k => or_None (option_map PyStr (first_value k a))
            | _ => PyNone
            end)
      else Raise TypeError
  end.

(** The first component of the returned tuple: a text, an f-string whose
    interpolated value is no [str] (its rendering is not modelled), or the
    prediction mapping that the framework serialises as JSON. *)
Inductive body : Type :=
| Text (s : string)
| Format (before : string) (v : pyval) (after : string)
| Mapping (d : dict).

Definition fstring (before : string) (v : pyval) (after : string) : body :=
  match v with
  | PyStr s => Text (before ++ s ++ after)
  | _ => Format before v after
  end.

Record response : Type := {
  content : body;
  status : Z;
  response_headers : list (string * string)
}.

Definition headers : list (string * string) :=
  [ ("Access-Control-Allow-Origin", "*");
    ("Access-Control-Allow-Methods", "POST, GET, OPTIONS");
    ("Access-Control-Allow-Headers", "Content-Type") ].

Definition respond (b : body) (code : Z) : response :=
  {| content := b; status := code; response_headers := headers |}.

(** What a run does besides returning: a [print] of a text, a [print]
    of an f-string ending in the text of an exception (only its constant
    part is kept), the read of the JSON body, the read of the query, the
    call of [model.predict]. *)
Inductive event : Type :=
| Print (msg : string)
| PrintError (msg : string)
| ReadJson
| ReadArgs
| Predict.

(** ** Formatting of the prediction (lines 104 to 115) *)

(** [dict(zip(output_features, row))].  A key that is no [str] ends the
    [try] block of the prediction with a [TypeError]: a [list] or a
    [dict] cannot be hashed by [dict()], and [None], a [bool] or a number
    fails the test ["vibration" in key] of the loop; no response depends
    on which of the two it is. *)
Fixpoint dict_of_pairs (pairs : list (pyval * pyval)) (d : dict) : Result dict :=
  match pairs with
  | [] => Ok d
  | (PyStr k, v) :: r => dict_of_pairs r (dict_set k v d)
  | _ :: _ => Raise TypeError
  end.

(** The body of the loop: which rounding a key gets. *)
Definition round_feature (key : string) (value : pyval) : Result pyval :=
  if Text.contains "vibration" key then py_round value 2
  else if Text.contains "pressure" key || Text.contains "flow" key then
    py_round value 0
  else py_round value 1.

(** [for key, value in prediction_dict.items(): prediction_dict[key] = ...]:
    the view is live, the entry at position [i] is read from the mapping
    as the assignments before it left it; [n] entries remain. *)
Fixpoint round_loop (n : nat) (i : nat) (d : dict) : Result dict :=
  match n with
  | O => Ok d
  | S n' =>
      match nth_error d i with
      | None => Ok d
      | Some (key, value) =>
          r <- round_feature key value ;;
          round_loop n' (S i) (dict_set key r d)
      end
  end.

Definition format_prediction (artifacts prediction_values : pyval) : Result dict :=
  output_features <- getitem_str artifacts "output_features" ;;
  row <- getitem_int prediction_values 0 ;;
  names <- py_iter output_features ;;
  values <- py_iter row ;;
  prediction_dict <- dict_of_pairs (combine names values) [] ;;
  round_loop (List.length prediction_dict) 0 prediction_dict.

(** ** Input validation (lines 69 to 92) *)

(** How a block of the handler ends: it goes on with a value, it returns
    a response, or an exception leaves the handler. *)
Inductive step (A : Type) : Type :=
| Continue (a : A)
| Return (r : response)
| Abort (e : exn).

Arguments Continue {A} a.
Arguments Return {A} r.
Arguments Abort {A} e.

(** The two [except] clauses of the validation.  [name] is the binding of
    [input_feature_name] when the exception was raised: the first clause
    formats it, and raises [UnboundLocalError] when line 80 had not
    assigned it. *)
Definition except_input (name : option pyval) (e : exn) : step Float64.t * list event :=
  if is_ValueError_or_TypeError e then
    match name with
    | Some n =>
        (Return (respond (fstring "Bad Request: Invalid value for '" n
                                  "'. Must be a number.") 400), [])
    | None => (Abort UnboundLocalError, [])
    end
  else if is_Exception e then
    (Return (respond (Text "Bad Request: Could not parse input.") 400),
     [PrintError "Error parsing input: "])
  else (Abort e, []).

Definition read_data (req : request) : request_data * list event :=
  if String.eqb (method req) "POST" then (JsonData (get_json req), [ReadJson])
  else (ArgsData (args req), [ReadArgs]).

Definition validate_input (artifacts : pyval) (req : request) : step Float64.t * list event :=
  let (data, ev) := read_data req in
  if data_is_None data then
    (Return (respond (Text "Bad Request: Missing or invalid JSON payload.") 400), ev)
  else
    match (features <- getitem_str artifacts "input_features" ;;
           getitem_int features 0) with
    | Raise e => let (s, ev') := except_input None e in (s, (ev ++ ev')%list)
    | Ok input_feature_name =>
        match data_get data input_feature_name with
        | Raise e =>
            let (s, ev') := except_input (Some input_feature_name) e in (s, (ev ++ ev')%list)
        | Ok raw_mill_load_str =>
            if is_None raw_mill_load_str then
              (Return (respond (fstring "Bad Request: Missing '" input_feature_name
                                        "' parameter.") 400), ev)
            else
              match py_float raw_mill_load_str with
              | Raise e =>
                  let (s, ev') := except_input (Some input_feature_name) e in
                  (s, (ev ++ ev')%list)
              | Ok raw_mill_load_val => (Continue raw_mill_load_val, ev)
              end
        end
    end.

(** ** The model context and the handler *)

Section Endpoint.

(** [pandas] is outside the repository: the type of its frames and the
    constructor [pd.DataFrame(data, columns=...)] are parameters. *)
Variable DataFrame : Type.
Variable pd_DataFrame : list (list Float64.t) -> pyval -> Result DataFrame.

(** The object that [joblib.load] returns: a hidden state, and what
    [predict] returns or raises on a frame together with the state it
    leaves. *)
Record Regressor : Type := {
  St : Type;
  st : St;
  predict : St -> DataFrame -> Result pyval * St
}.

Definition call_predict (m : Regressor) (df : DataFrame) : Result pyval * Regressor :=
  let (r, s') := predict m (st m) df in
  (r, {| St := St m; st := s'; predict := predict m |}).

(** The module globals; [None] is Python's [None]. *)
Record globals : Type := {
  model : option Regressor;
  artifacts : pyval
}.

(** One call: what it returns or raises, what it did, the globals it
    leaves. *)
Record run : Type := {
  result : Result response;
  trace : list event;
  after : globals
}.

Definition except_predict (e : exn) : Result response * list event :=
  if is_Exception e then
    (Ok (respond (Text "Internal Server Error: Prediction failed.") 500),
     [PrintError "Error during prediction: "])
  else (Raise e, []).

(** Lines 95 to 123. *)
Definition predict_and_format (g : globals) (m : Regressor) (raw_mill_load_val : Float64.t) : run :=
  match (columns <- getitem_str (artifacts g) "input_features" ;;
         pd_DataFrame [[raw_mill_load_val]] columns) with
  | Raise e =>
      let (r, ev) := except_predict e in
      {| result := r; trace := ev; after := g |}
  | Ok input_df =>
      let (predicted, m') := call_predict m input_df in
      let g' := {| model := Some m'; artifacts := artifacts g |} in
      match (prediction_values <- predicted ;;
             format_prediction (artifacts g) prediction_values) with
      | Raise e =>
          let (r, ev) := except_predict e in
          {| result := r; trace := Predict :: ev; after := g' |}
      | Ok prediction_dict =>
          {| result := Ok (respond (Mapping prediction_dict) 200);
             trace := [Predict]; after := g' |}
      end
  end.

Definition predict_telemetry (g : globals) (req : request) : run :=
  if String.eqb (method req) "OPTIONS" then
    {| result := Ok (respond (Text "") 204); trace := []; after := g |}
  else
    match model g with
    | Some m =>
        if is_None (artifacts g) then
          {| result := Ok (respond (Text "Internal Server Error: Model not loaded") 500);
             trace := [Print "ERROR: Model is not loaded."]; after := g |}
        else
          match validate_input (artifacts g) req with
          | (Return r, ev) => {| result := Ok r; trace := ev; after := g |}
          | (Abort e, ev) => {| result := Raise e; trace := ev; after := g |}
          | (Continue raw_mill_load_val, ev) =>
              let r := predict_and_format g m raw_mill_load_val in
              {| result := result r; trace := (ev ++ trace r)%list; after := after r |}
          end
    | None =>
        {| result := Ok (respond (Text "Internal Server Error: Model not loaded") 500);
           trace := [Print "ERROR: Model is not loaded."]; after := g |}
    end.

(** ** Loading (lines 12 to 40) *)

Definition MODEL_FILE : string := "model.joblib".
Definition ARTIFACTS_FILE : string := "model_artifacts.json".

(** What the cold start finds: the outcome of [joblib.load] on a file
    name ([None] for a file that holds [None]), of [open(name, 'r')]
    (the text of the file) and of [json.load] on a text. *)
Record environment : Type := {
  joblib_load : string -> Result (option Regressor);
  open_r : string -> Result string;
  json_load : string -> Result pyval
}.

Definition except_load (e : exn) (g : globals) : Result bool * list event * globals :=
  match e with
  | FileNotFoundError filename =>
      (Ok false,
       [Print ("ERROR: Missing file " ++ filename ++
               ". Make sure model.joblib and model_artifacts.json are deployed.")],
       g)
  | _ =>
      if is_Exception e then (Ok false, [PrintError "Error loading model: "], g)
      else (Raise e, [], g)
  end.

Definition load_model (env : environment) (g : globals) : Result bool * list event * globals :=
  match joblib_load env MODEL_FILE with
  | Raise e => except_load e g
  | Ok m =>
      let g1 := {| model := m; artifacts := artifacts g |} in
      match (f <- open_r env ARTIFACTS_FILE ;; json_load env f) with
      | Raise e => except_load e g1
      | Ok a =>
          (Ok true, [Print "Model and artifacts loaded successfully."],
           {| model := m; artifacts := a |})
      end
  end.

(** The globals as lines 12 and 13 set them, and the module after its
    import: line 40 calls [load_model] once. *)
Definition initial : globals := {| model := None; artifacts := PyNone |}.

Definition cold_start (env : environment) : Result bool * list event * globals :=
  load_model env initial.

Definition loaded (g : globals) : Prop :=
  model g <> None /\ artifacts g <> PyNone.

Definition unloaded (g : globals) : Prop :=
  model g = None \/ artifacts g = PyNone.

(** The first step of [load_model] that fails at the cold start, with
    the exception it raises: the read of the model file, the opening of the
    artifacts file, or the parse of its text. *)
Definition load_failure (env : environment) (e : exn) : Prop :=
  joblib_load env MODEL_FILE = Raise e \/
  exists m, joblib_load env MODEL_FILE = Ok m /\
    (open_r env ARTIFACTS_FILE = Raise e \/
     exists f, open_r env ARTIFACTS_FILE = Ok f /\ json_load env f = Raise e).

(** A model whose [predict] leaves the state of the model as it found
    it. *)
Definition stateless (m : Regressor) : Prop :=
  forall (s : St m) (df : DataFrame), snd (predict m s df) = s.

(** The model of [g] answers the input [x] with a first row of
    [values]: the frame is built, [predict] returns and leaves the state
    [s'], the value returned has a row 0 that can be iterated. *)
Definition predicts (g : globals) (m : Regressor) (x : Float64.t)
           (s' : St m) (values : list pyval) : Prop :=
  exists columns input_df prediction_values row,
    getitem_str (artifacts g) "input_features" = Ok columns /\
    pd_DataFrame [[x]] columns = Ok input_df /\
    predict m (st m) input_df = (Ok prediction_values, s') /\
    getitem_int prediction_values 0 = Ok row /\
    py_iter row = Ok values.

End Endpoint.

Arguments st {DataFrame} r.
Arguments predict {DataFrame} r _ _.
Arguments model {DataFrame} g.
Arguments artifacts {DataFrame} g.
Arguments result {DataFrame} r.
Arguments trace {DataFrame} r.
Arguments after {DataFrame} r.
Arguments initial {DataFrame}.
Arguments loaded {DataFrame} g.
Arguments unloaded {DataFrame} g.
Arguments stateless {DataFrame} m.
Arguments St {DataFrame} r.

(** ** JSON number literals *)

(** The most digits of an integer literal that [int], and so [json],
    reads: the default of [sys.set_int_max_str_digits]. *)
Definition MAX_STR_DIGITS : Z := 4300.

(** A number of a JSON text as Python's [json] reads it.  The literal is
    a minus sign (optional), an integer part (a lone 0, or digits that do
    not start with 0), a fraction (optional: a point and digits), an
    exponent (optional: e or E, a sign, digits).  It is an [int] when it
    has neither fraction nor exponent and else the [float] of its text;
    [NaN], [Infinity] and [-Infinity] are floats.  An integer literal of
    more than [MAX_STR_DIGITS] digits is refused ([int] raises
    [ValueError]); [None] is a text that [json] does not read. *)

Definition take_minus (s : string) : bool * string :=
  match s with
  | String "-"%char r => (true, r)
  | _ => (false, s)
  end.

Definition leading_zero (ds : string) : bool :=
  match ds with
  | String "0"%char (String _ _) => true
  | _ => false
  end.

Definition json_integer (s : string) : option (bool * string * string) :=
  let (neg, s1) := take_minus s in
  let (ds, rest) := Text.span_digits s1 in
  if Text.is_empty ds || leading_zero ds then None
  else Some (neg, ds, rest).

Definition json_fraction (s : string) : option (bool * string) :=
  match s with
  | String "."%char r =>
      let (ds, rest) := Text.span_digits r in
      if Text.is_empty ds then None else Some (true, rest)
  | _ => Some (false, s)
  end.

Definition json_exponent (s : string) : option (bool * string) :=
  match s with
  | String c r =>
      if Ascii.eqb c "e" || Ascii.eqb c "E" then
        let (_, r1) := Text.take_sign r in
        let (ds, rest) := Text.span_digits r1 in
        if Text.is_empty ds then None else Some (true, rest)
      else Some (false, s)
  | EmptyString => Some (false, s)
  end.

Definition json_number (s : string) : option pyval :=
  if String.eqb s "NaN" then Some (PyFloat Float64.nan)
  else if String.eqb s "Infinity" then Some (PyFloat (Float64.inf false))
  else if String.eqb s "-Infinity" then Some (PyFloat (Float64.inf true))
  else
    match json_integer s with
    | None => None
    | Some (neg, ds, r1) =>
        match json_fraction r1 with
        | None => None
        | Some (frac, r2) =>
            match json_exponent r2 with
            | None => None
            | Some (exp, r3) =>
                if negb (Text.is_empty r3) then None
                else if frac || exp then option_map PyFloat (float_of_string s)
                else if MAX_STR_DIGITS <? Z.of_nat (String.length ds) then None
                else Some (PyInt (if neg then - Text.digits_value ds
                                  else Text.digits_value ds))
            end
        end
    end.

(** ** The rounding policy as the specification words it *)

(** The ordered table of the specification: the first substring that the
    name contains gives the number of decimals, no match gives one. *)
Definition rounding_table : list (string * Z) :=
  [("vibration", 2); ("pressure", 0); ("flow", 0)].

Fixpoint first_match (table : list (string * Z)) (otherwise : Z) (name : string) : Z :=
  match table with
  | [] => otherwise
  | (sub, digits) :: rest =>
      if Text.contains sub name then digits else first_match rest otherwise name
  end.

Definition spec_decimals (name : string) : Z := first_match rounding_table 1 name.

(** ** A deployment *)

(** A frame kept as its rows and its column labels, built without
    checks; a descriptor with the input feature [raw_mill_load] and twelve
    output features; a model without state whose [predict] returns one
    row of twelve [numpy.float64]; the globals of a successful cold
    start. *)
Definition Frame : Type := list (list Float64.t) * pyval.

Definition frame (data : list (list Float64.t)) (columns : pyval) : Result Frame :=
  Ok (data, columns).

Definition example_outputs : list string :=
  [ "motor_vibration_x"; "motor_vibration_y"; "outlet_pressure";
    "inlet_pressure"; "air_flow"; "bearing_temperature";
    "outlet_temperature"; "motor_current"; "fan_current";
    "mill_load"; "separator_speed"; "feed_rate" ].

Definition example_artifacts : pyval :=
  PyDict [ ("input_features", PyList [PyStr "raw_mill_load"]);
           ("output_features", PyList (map PyStr example_outputs)) ].

Definition example_row : list pyval :=
  [ NpFloat (Float64.of_decimal false 314159 (-5));
    NpFloat (Float64.of_decimal false 2718 (-3));
    NpFloat (Float64.of_decimal false 126 (-1));
    NpFloat (Float64.of_decimal false 1175 (-2));
    NpFloat (Float64.of_decimal false 4525 (-1));
    NpFloat (Float64.of_decimal false 6534 (-2));
    NpFloat (Float64.of_decimal false 9015 (-2));
    NpFloat (Float64.of_decimal false 2249 (-2));
    NpFloat (Float64.of_decimal false 1801 (-2));
    NpFloat (Float64.of_decimal false 1205 (-1));
    NpFloat (Float64.of_decimal false 75049 (-2));
    NpFloat (Float64.of_decimal false 3333 (-2)) ].

Definition example_model : Regressor Frame :=
  {| St := unit;
     st := tt;
     predict := fun (s : unit) (_ : Frame) => (Ok (PyList [PyList example_row]), s) |}.

Definition example_globals : globals Frame :=
  {| model := Some example_model; artifacts := example_artifacts |}.

Definition post (json : pyval) : request :=
  {| method := "POST"; get_json := json; args := [] |}.

Definition get (query : list (string * string)) : request :=
  {| method := "GET"; get_json := PyNone; args := query |}.

Definition example_post : request :=
  post (PyDict [("raw_mill_load", PyStr "120.5")]).

Definition example_get : request := get [("raw_mill_load", "120.5")].

Definition status_of (r : Result response) : option Z :=
  match r with
  | Ok resp => Some (status resp)
  | Raise _ => None
  end.

(** A cold start that finds the model file and no artifacts file. *)
Definition example_environment : environment Frame :=
  {| joblib_load := fun _ => Ok (Some example_model);
     open_r := fun name => Raise (FileNotFoundError name);
     json_load := fun _ => Raise JSONDecodeError |}.

(** ** Other deployments *)

(** The float of the text "120.5"; a model that counts its calls and
    gives every call the same outcome; the globals with a model beside
    the descriptor of the deployment, and with another descriptor beside
    its model; a [pd.DataFrame] that refuses every input; a cold start
    that gets [m] from the model file and [a] from the artifacts file. *)
Definition example_input : Float64.t := Float64.of_decimal false 1205 (-1).

Definition counting_model (outcome : Result pyval) : Regressor Frame :=
  {| St := nat;
     st := 0%nat;
     predict := fun (s : nat) (_ : Frame) => (outcome, S s) |}.

Definition with_model (m : Regressor Frame) : globals Frame :=
  {| model := Some m; artifacts := example_artifacts |}.

Definition with_artifacts (a : pyval) : globals Frame :=
  {| model := Some example_model; artifacts := a |}.

Definition no_frame (data : list (list Float64.t)) (columns : pyval) : Result Frame :=
  Raise ValueError.

Definition deployment (m : Result (option (Regressor Frame))) (a : Result pyval) :
  environment Frame :=
  {| joblib_load := fun _ => m;
     open_r := fun _ => Ok "{}";
     json_load := fun _ => a |}.

(** The decimal numeral of [10^n]: a 1 and [n] zeros. *)
Fixpoint zeros (n : nat) : string :=
  match n with
  | O => EmptyString
  | S n' => String "0" (zeros n')
  end.

Definition power_of_ten_literal (n : nat) : string := String "1" (zeros n).

(** * Properties *)

Definition cors_headers : list (string * string) :=
  [ ("Access-Control-Allow-Origin", "*");
    ("Access-Control-Allow-Methods", "POST, GET, OPTIONS");
    ("Access-Control-Allow-Headers", "Content-Type") ].

(** What the handler reads of the payload of a request: the JSON body of
    a POST, the query of any other method. *)
Definition payload (req : request) : request_data := fst (read_data req).

(** The value that the payload binds to a name, when it is a mapping
    that has the name. *)
Definition binding (d : request_data) (name : string) : option pyval :=
  match d with
  | JsonData (PyDict kv) => lookup name kv
  | JsonData _ => None
  | ArgsData a => option_map PyStr (first_value name a)
  end.

Fixpoint all_digits (s : string) : bool :=
  match s with
  | EmptyString => true
  | String c r => Text.is_digit c && all_digits r
  end.

Definition sign_text (negative : bool) : string :=
  if negative then "-" else "".

(** The JSON number [j] read from the literal [s] goes through [float]
    as the text [s] does: always when [j] is a float; when [j] is an
    [int], if it is within the range of a float and [s] is not the
    literal of minus zero (the [int] has no sign of zero). *)
Definition converts_alike (s : string) (j : pyval) : Prop :=
  match j with
  | PyInt n => Float64.is_finite (Float64.of_Z n) = true /\ s <> "-0"
  | _ => True
  end.

(** A scalar of [numpy]. *)
Definition is_numpy (v : pyval) : bool :=
  match v with
  | NpFloat _ => true
  | _ => false
  end.



(** The entries of a mapping rounded one after the other, each by the
    rule of its key. *)
Fixpoint round_items (items : dict) : Result dict :=
  match items with
  | [] => Ok []
  | (key, value) :: rest =>
      r <- round_feature key value ;;
      rest' <- round_items rest ;;
      Ok ((key, r) :: rest')
  end.

(** The payload is a mapping: a JSON object or the query. *)
Definition is_mapping (d : request_data) : bool :=
  match d with
  | JsonData (PyDict _) => true
  | JsonData _ => false
  | ArgsData _ => true
  end.

(** The validation (lines 69 to 92) lets the request through with the
    float [x]: the descriptor gives a name, the payload gives a value for
    it, and [float] accepts the value. *)
Definition accepts (artifacts : pyval) (req : request) (x : Float64.t) : Prop :=
  exists features name v,
    getitem_str artifacts "input_features" = Ok features /\
    getitem_int features 0 = Ok name /\
    data_get (payload req) name = Ok v /\
    py_float v = Ok x.

Definition is_number (v : pyval) : bool :=
  match v with
  | PyBool _ | PyInt _ | PyFloat _ | NpFloat _ => true
  | _ => false
  end.

Definition is_text (b : body) : bool :=
  match b with
  | Mapping _ => false
  | _ => true
  end.

(** A value that [round] gives back as it is, whatever the number of
    decimals from 0 to 2: an [int], or a float, of Python or of [numpy],
    that is an infinity or NaN. *)
Definition kept_by_round (v : pyval) : bool :=
  match v with
  | PyInt _ => true
  | PyFloat x | NpFloat x => negb (Float64.is_finite x)
  | _ => false
  end.

(** The globals after a sequence of requests that one process handles
    one after the other, each on the globals that the one before left. *)
Fixpoint serve (DataFrame : Type)
         (pd_DataFrame : list (list Float64.t) -> pyval -> Result DataFrame)
         (g : globals DataFrame) (reqs : list request) : globals DataFrame :=
  match reqs with
  | [] => g
  | req :: rest =>
      serve DataFrame pd_DataFrame (after (predict_telemetry DataFrame pd_DataFrame g req)) rest
  end.

(** A response that a block returns was built by [respond]. *)
Definition built (r : response) : Prop :=
  response_headers r = cors_headers /\ In (status r) [200; 204; 400; 500].

Lemma built_respond (b : body) (code : Z) :
  In code [200; 204; 400; 500] -> built (respond b code).
Proof. intros H. split; [reflexivity | exact H]. Qed.

Create HintDb endpoint.
#[local] Hint Resolve built_respond : endpoint.

Ltac in_codes := simpl; tauto.

Lemma except_input_built (name : option pyval) (e : exn) (r : response) (ev : list event) :
  except_input name e = (Return r, ev) -> built r.
Proof.
  unfold except_input.
  destruct (is_ValueError_or_TypeError e).
  - destruct name; intros H; inversion H; subst.
    apply built_respond; in_codes.
  - destruct (is_Exception e); intros H; inversion H; subst.
    apply built_respond; in_codes.
Qed.

Lemma validate_input_built (a : pyval) (req : request) (r : response) (ev : list event) :
  validate_input a req = (Return r, ev) -> built r.
Proof.
  unfold validate_input.
  destruct (read_data req) as [data ev0].
  destruct (data_is_None data).
  - intros H; inversion H; subst. apply built_respond; in_codes.
  - destruct (features <- getitem_str a "input_features" ;; getitem_int features 0)
      as [name | e].
    + destruct (data_get data name) as [raw | e].
      * destruct (is_None raw).
        -- intros H; inversion H; subst. apply built_respond; in_codes.
        -- destruct (py_float raw) as [x | e].
           ++ intros H; inversion H.
           ++ destruct (except_input (Some name) e) as [s ev'] eqn:E.
              intros H; inversion H; subst. eapply except_input_built; eauto.
      * destruct (except_input (Some name) e) as [s ev'] eqn:E.
        intros H; inversion H; subst. eapply except_input_built; eauto.
    + destruct (except_input None e) as [s ev'] eqn:E.
      intros H; inversion H; subst. eapply except_input_built; eauto.
Qed.

Section Properties.

Variable DataFrame : Type.
Variable pd_DataFrame : list (list Float64.t) -> pyval -> Result DataFrame.

Abbreviation handler := (predict_telemetry DataFrame pd_DataFrame).
Abbreviation inference := (predict_and_format DataFrame pd_DataFrame).

Lemma except_predict_built (e : exn) (r : response) (ev : list event) :
  except_predict e = (Ok r, ev) -> built r.
Proof.
  unfold except_predict. destruct (is_Exception e); intros H; inversion H; subst.
  apply built_respond; in_codes.
Qed.

Lemma inference_built (g : globals DataFrame) (m : Regressor DataFrame)
      (x : Float64.t) (r : response) :
  result (inference g m x) = Ok r -> built r.
Proof.
  unfold predict_and_format.
  destruct (columns <- getitem_str (artifacts g) "input_features" ;;
            pd_DataFrame [[x]] columns) as [df | e].
  - destruct (call_predict DataFrame m df) as [pv m'].
    destruct (prediction_values <- pv ;; format_prediction (artifacts g) prediction_values)
      as [d | e].
    + simpl. intros H; inversion H; subst. apply built_respond; in_codes.
    + destruct (except_predict e) as [r0 ev] eqn:E. simpl.
      intros H; subst. eapply except_predict_built; eauto.
  - destruct (except_predict e) as [r0 ev] eqn:E. simpl.
    intros H; subst. eapply except_predict_built; eauto.
Qed.

(** C5.  A request whose method is OPTIONS is answered 204 with an
    empty body and the three CORS headers, whatever the globals hold;
    nothing is read, printed or predicted, and the globals stay. *)
Theorem options_preflight (g : globals DataFrame) (req : request) :
  method req = "OPTIONS" ->
  handler g req =
    {| result := Ok {| content := Text "";
                       status := 204;
                       response_headers :=
                         [ ("Access-Control-Allow-Origin", "*");
                           ("Access-Control-Allow-Methods", "POST, GET, OPTIONS");
                           ("Access-Control-Allow-Headers", "Content-Type") ] |};
       trace := [];
       after := g |}.
Proof.
  intros H. unfold predict_telemetry. rewrite H. reflexivity.
Qed.

Lemma model_not_loaded_run (g : globals DataFrame) (req : request) :
  method req <> "OPTIONS" ->
  unloaded g ->
  handler g req =
    {| result := Ok (respond (Text "Internal Server Error: Model not loaded") 500);
       trace := [Print "ERROR: Model is not loaded."];
       after := g |}.
Proof.
  intros Hm Hg. unfold predict_telemetry.
  destruct (String.eqb_spec (method req) "OPTIONS") as [E | _]; [contradiction |].
  destruct Hg as [Hg | Hg]; rewrite Hg.
  - reflexivity.
  - destruct (model g); reflexivity.
Qed.

(** C3.  With the model or the artifacts at [None], a request whose
    method is not OPTIONS is answered 500 "Model not loaded"; the only
    event of the run is the print of the error: neither the JSON body
    nor the query has been read. *)
Theorem model_not_loaded (g : globals DataFrame) (req : request) :
  method req <> "OPTIONS" ->
  model g = None \/ artifacts g = PyNone ->
  handler g req =
    {| result := Ok {| content := Text "Internal Server Error: Model not loaded";
                       status := 500;
                       response_headers :=
                         [ ("Access-Control-Allow-Origin", "*");
                           ("Access-Control-Allow-Methods", "POST, GET, OPTIONS");
                           ("Access-Control-Allow-Headers", "Content-Type") ] |};
       trace := [Print "ERROR: Model is not loaded."];
       after := g |}.
Proof.
  intros Hm Hg. exact (model_not_loaded_run g req Hm Hg).
Qed.

(** C6.  Whatever the globals and the request, a response that the
    handler returns carries the three CORS headers, and its status is
    one of 200, 204, 400 and 500. *)
Theorem cors_on_every_response (g : globals DataFrame) (req : request) (r : response) :
  result (handler g req) = Ok r ->
  response_headers r =
    [ ("Access-Control-Allow-Origin", "*");
      ("Access-Control-Allow-Methods", "POST, GET, OPTIONS");
      ("Access-Control-Allow-Headers", "Content-Type") ]
  /\ In (status r) [200; 204; 400; 500].
Proof.
  unfold predict_telemetry.
  destruct (String.eqb (method req) "OPTIONS").
  - simpl. intros H; inversion H; subst. apply built_respond; in_codes.
  - destruct (model g) as [m |].
    + destruct (is_None (artifacts g)).
      * simpl. intros H; inversion H; subst. apply built_respond; in_codes.
      * destruct (validate_input (artifacts g) req) as [[x | r0 | e] ev] eqn:E; simpl.
        -- apply inference_built.
        -- intros H; inversion H; subst. eapply validate_input_built; eauto.
        -- discriminate.
    + simpl. intros H; inversion H; subst. apply built_respond; in_codes.
Qed.

Lemma except_load_swallows (e : exn) (g : globals DataFrame) :
  is_Exception e = true ->
  exists ev, except_load DataFrame e g = (Ok false, ev, g) /\ ev <> [].
Proof.
  intros He. unfold except_load.
  destruct e; simpl in He; try discriminate;
    (eexists; split; [reflexivity | discriminate]).
Qed.

(** C7.  When a step of [load_model] raises at the cold start (the read
    of the model file, the opening of the artifacts file or the parse of
    its JSON text) and the exception is an [Exception], [load_model]
    returns [False] and raises nothing, it prints the failure, and
    [artifacts] is still [None] (the model may already be set): the
    context is not loaded.  Every request whose method is not OPTIONS is
    then answered 500 "Model not loaded", [predict] is not called, and the
    globals stay as they are. *)
Theorem load_failure_leaves_unloaded (env : environment DataFrame) (e : exn) :
  load_failure DataFrame env e ->
  is_Exception e = true ->
  exists (ev : list event) (g : globals DataFrame),
    cold_start DataFrame env = (Ok false, ev, g) /\
    ev <> [] /\
    artifacts g = PyNone /\
    ~ loaded g /\
    forall req : request,
      method req <> "OPTIONS" ->
      result (handler g req) =
        Ok {| content := Text "Internal Server Error: Model not loaded";
              status := 500;
              response_headers := cors_headers |} /\
      ~ In Predict (trace (handler g req)) /\
      after (handler g req) = g.
Proof.
  intros Hf He.
  assert (Hload : exists ev g, cold_start DataFrame env = (Ok false, ev, g) /\
                               ev <> [] /\ artifacts g = PyNone).
  { unfold cold_start, load_model.
    destruct Hf as [Hj | (m & Hj & [Ho | (f & Ho & Hp)])]; rewrite Hj.
    - destruct (except_load_swallows e initial He) as (ev & Hev & Hne).
      exists ev, initial. repeat split; assumption.
    - rewrite Ho. simpl.
      destruct (except_load_swallows e {| model := m; artifacts := PyNone |} He)
        as (ev & Hev & Hne).
      exists ev, {| model := m; artifacts := PyNone |}. repeat split; assumption.
    - rewrite Ho. simpl. rewrite Hp.
      destruct (except_load_swallows e {| model := m; artifacts := PyNone |} He)
        as (ev & Hev & Hne).
      exists ev, {| model := m; artifacts := PyNone |}. repeat split; assumption. }
  destruct Hload as (ev & g & Hc & Hne & Ha).
  exists ev, g.
  split; [exact Hc |]. split; [exact Hne |]. split; [exact Ha |]. split.
  - intros [_ Hn]. apply Hn. exact Ha.
  - intros req Hm.
    rewrite (model_not_loaded_run g req Hm (or_intror Ha)). simpl.
    split; [reflexivity |]. split; [| reflexivity].
    intros [E | []]. discriminate.
Qed.

Lemma read_data_payload (req1 req2 : request) :
  method req1 = method req2 ->
  payload req1 = payload req2 ->
  read_data req1 = read_data req2.
Proof.
  unfold payload, read_data. intros Hm. rewrite Hm.
  destruct (String.eqb (method req2) "POST"); simpl; intros Hp; rewrite Hp; reflexivity.
Qed.

Lemma handler_payload (g : globals DataFrame) (req1 req2 : request) :
  method req1 = method req2 ->
  payload req1 = payload req2 ->
  handler g req1 = handler g req2.
Proof.
  intros Hm Hp. unfold predict_telemetry, validate_input.
  rewrite (read_data_payload req1 req2 Hm Hp), Hm. reflexivity.
Qed.

Lemma inference_after (g : globals DataFrame) (m : Regressor DataFrame) (x : Float64.t) :
  model g = Some m ->
  stateless m ->
  after (inference g m x) = g.
Proof.
  intros Hg Hs. unfold predict_and_format.
  destruct (columns <- getitem_str (artifacts g) "input_features" ;;
            pd_DataFrame [[x]] columns) as [df | e].
  - unfold call_predict. specialize (Hs (st m) df).
    destruct (predict m (st m) df) as [pv s']. simpl in Hs. subst s'.
    assert (Hg' : {| model := Some {| St := St m; st := st m; predict := predict m |};
                     artifacts := artifacts g |} = g).
    { destruct g as [mo a]. simpl in *. subst mo. destruct m. reflexivity. }
    destruct (prediction_values <- pv ;; format_prediction (artifacts g) prediction_values).
    + simpl. exact Hg'.
    + destruct (except_predict e). simpl. exact Hg'.
  - destruct (except_predict e). reflexivity.
Qed.

Lemma handler_after (g : globals DataFrame) (req : request) :
  (forall m, model g = Some m -> stateless m) ->
  after (handler g req) = g.
Proof.
  intros Hs. unfold predict_telemetry.
  destruct (String.eqb (method req) "OPTIONS"); [reflexivity |].
  destruct (model g) as [m |] eqn:Hm; [| reflexivity].
  destruct (is_None (artifacts g)); [reflexivity |].
  destruct (validate_input (artifacts g) req) as [[x | r | e] ev]; simpl;
    try reflexivity.
  apply inference_after; [exact Hm | apply Hs; reflexivity].
Qed.

(** C9.  With a model whose [predict] keeps no state from one call to
    the next, a call of the handler leaves the globals as they were, and
    a second request of the same method and the same payload, handled
    after the first, gets the same response and leaves the globals again.
    The run depends on the request by its method and its payload only. *)
Theorem handler_deterministic_and_stateless
        (g : globals DataFrame) (req1 req2 : request) :
  (forall m, model g = Some m -> stateless m) ->
  method req1 = method req2 ->
  payload req1 = payload req2 ->
  after (handler g req1) = g /\
  result (handler (after (handler g req1)) req2) = result (handler g req1) /\
  trace (handler (after (handler g req1)) req2) = trace (handler g req1) /\
  after (handler (after (handler g req1)) req2) = g.
Proof.
  intros Hs Hm Hp.
  rewrite (handler_after g req1 Hs).
  rewrite <- (handler_payload g req1 req2 Hm Hp).
  rewrite (handler_after g req1 Hs). repeat split; reflexivity.
Qed.

(** ** The rounding loop *)

Lemma dict_set_present (pre post : dict) (k : string) (v x : pyval) :
  ~ In k (keys pre) ->
  dict_set k x (pre ++ (k, v) :: post)%list = (pre ++ (k, x) :: post)%list.
Proof.
  induction pre as [| [k' v'] pre IH]; simpl; intros Hk.
  - rewrite String.eqb_refl. reflexivity.
  - destruct (String.eqb_spec k' k) as [E | _].
    + exfalso. apply Hk. left. exact E.
    + rewrite IH; [reflexivity | tauto].
Qed.

Lemma dict_set_absent (d : dict) (k : string) (x : pyval) :
  ~ In k (keys d) -> dict_set k x d = (d ++ [(k, x)])%list.
Proof.
  induction d as [| [k' v'] d IH]; simpl; intros Hk; [reflexivity |].
  destruct (String.eqb_spec k' k) as [E | _].
  - exfalso. apply Hk. left. exact E.
  - rewrite IH; [reflexivity | tauto].
Qed.

Lemma nth_error_middle {A : Type} (pre post : list A) (a : A) :
  nth_error (pre ++ a :: post)%list (List.length pre) = Some a.
Proof.
  induction pre as [| b pre IH]; simpl; [reflexivity | exact IH].
Qed.

Lemma round_loop_from (post pre : dict) :
  NoDup (keys (pre ++ post)%list) ->
  round_loop (List.length post) (List.length pre) (pre ++ post)%list =
  (rest <- round_items post ;; Ok (pre ++ rest)%list).
Proof.
  revert pre. induction post as [| [k v] post IH]; intros pre Hnd.
  - simpl. reflexivity.
  - simpl. rewrite nth_error_middle.
    destruct (round_feature k v) as [x | e]; simpl; [| reflexivity].
    assert (Hk : ~ In k (keys pre)).
    { unfold keys in *. rewrite map_app in Hnd. simpl in Hnd.
      apply NoDup_remove_2 in Hnd. intros Hin. apply Hnd.
      apply in_or_app. left. exact Hin. }
    rewrite (dict_set_present pre post k v x Hk).
    replace (pre ++ (k, x) :: post)%list with ((pre ++ [(k, x)]) ++ post)%list
      by (rewrite <- app_assoc; reflexivity).
    replace (S (List.length pre)) with (List.length (pre ++ [(k, x)])%list)
      by (rewrite length_app; simpl; lia).
    rewrite IH.
    + destruct (round_items post) as [rest | e]; simpl; [| reflexivity].
      rewrite <- app_assoc. reflexivity.
    + unfold keys in *. rewrite <- app_assoc. simpl.
      rewrite map_app in *. simpl in *. exact Hnd.
Qed.

(** On a mapping with distinct keys the loop rounds every entry once, by
    the rule of its key, and keeps the entries in their order. *)
Lemma round_loop_items (d : dict) :
  NoDup (keys d) ->
  round_loop (List.length d) 0 d = round_items d.
Proof.
  intros Hnd. change (round_loop (List.length d) (List.length (@nil (string * pyval))) ([] ++ d)%list = round_items d).
  rewrite round_loop_from by exact Hnd.
  destruct (round_items d); reflexivity.
Qed.

Lemma round_items_keys (d d' : dict) :
  round_items d = Ok d' -> keys d' = keys d.
Proof.
  revert d'. induction d as [| [k v] d IH]; simpl; intros d' H.
  - inversion H. reflexivity.
  - destruct (round_feature k v) as [x | e]; simpl in H; [| discriminate].
    destruct (round_items d) as [rest | e]; simpl in H; [| discriminate].
    inversion H; subst. simpl. f_equal. apply IH. reflexivity.
Qed.

Lemma round_feature_table (key : string) (value : pyval) :
  round_feature key value = py_round value (spec_decimals key).
Proof.
  unfold round_feature, spec_decimals, rounding_table, first_match.
  destruct (Text.contains "vibration" key); [reflexivity |].
  destruct (Text.contains "pressure" key); [reflexivity |].
  destruct (Text.contains "flow" key); reflexivity.
Qed.


(** ** The path to a prediction *)

Lemma dict_of_pairs_names (outs : list string) :
  forall (values : list pyval) (d : dict),
    NoDup outs ->
    (forall k, In k outs -> ~ In k (keys d)) ->
    dict_of_pairs (combine (map PyStr outs) values) d =
    Ok (d ++ combine outs values)%list.
Proof.
  induction outs as [| k outs IH]; intros values d Hnd Hd.
  - simpl. rewrite app_nil_r. reflexivity.
  - destruct values as [| v values]; simpl.
    + rewrite app_nil_r. reflexivity.
    + inversion Hnd as [| ? ? Hk Hnd']; subst.
      rewrite (dict_set_absent d k v) by (apply Hd; left; reflexivity).
      rewrite IH.
      * rewrite <- app_assoc. reflexivity.
      * exact Hnd'.
      * intros k' Hin. unfold keys. rewrite map_app. simpl.
        intros Hin'. apply in_app_or in Hin'. destruct Hin' as [Hin' | [E | []]].
        -- apply (Hd k'); [right; exact Hin | exact Hin'].
        -- subst k'. contradiction.
Qed.

Lemma keys_combine (outs : list string) :
  forall values : list pyval,
    (List.length outs <= List.length values)%nat ->
    keys (combine outs values) = outs.
Proof.
  induction outs as [| k outs IH]; intros values Hl; [reflexivity |].
  destruct values as [| v values]; simpl in *; [lia |].
  f_equal. apply IH. lia.
Qed.

Lemma keys_combine_NoDup (outs : list string) :
  forall values : list pyval,
    NoDup outs -> NoDup (keys (combine outs values)).
Proof.
  induction outs as [| k outs IH]; intros values Hnd; [constructor |].
  destruct values as [| v values]; simpl; [constructor |].
  inversion Hnd as [| ? ? Hk Hnd']; subst. constructor.
  - intros Hin. apply Hk. unfold keys in Hin.
    apply in_map_iff in Hin. destruct Hin as [[k' v'] [E Hin]]. simpl in E. subst k'.
    apply in_combine_l in Hin. exact Hin.
  - apply IH. exact Hnd'.
Qed.

Lemma round_items_total (items : dict) :
  Forall (fun kv => exists r, round_feature (fst kv) (snd kv) = Ok r) items ->
  exists d, round_items items = Ok d.
Proof.
  induction 1 as [| [k v] items [r Hr] _ [d Hd]]; simpl.
  - eexists; reflexivity.
  - simpl in Hr. rewrite Hr, Hd. simpl. eexists; reflexivity.
Qed.

Lemma format_prediction_names (a pv row : pyval) (values : list pyval)
      (outs : list string) (d : dict) :
  getitem_str a "output_features" = Ok (PyList (map PyStr outs)) ->
  NoDup outs ->
  getitem_int pv 0 = Ok row ->
  py_iter row = Ok values ->
  round_items (combine outs values) = Ok d ->
  format_prediction a pv = Ok d.
Proof.
  intros Ho Hnd Hr Hv Hd. unfold format_prediction.
  rewrite Ho. simpl. rewrite Hr. simpl. rewrite Hv. simpl.
  rewrite dict_of_pairs_names; [| exact Hnd | intros k _ []].
  simpl. rewrite round_loop_items by (apply keys_combine_NoDup; exact Hnd).
  exact Hd.
Qed.

Lemma validate_input_continue (a : pyval) (req : request)
      (features name v : pyval) (x : Float64.t) :
  getitem_str a "input_features" = Ok features ->
  getitem_int features 0 = Ok name ->
  data_get (payload req) name = Ok v ->
  py_float v = Ok x ->
  validate_input a req = (Continue x, snd (read_data req)).
Proof.
  intros Hf Hn Hg Hx. unfold validate_input, payload in *.
  destruct (read_data req) as [data ev]. simpl in *.
  assert (Hd : data_is_None data = false).
  { destruct data as [[] |]; try reflexivity. simpl in Hg. discriminate. }
  rewrite Hd, Hf. simpl. rewrite Hn, Hg.
  assert (Hv : is_None v = false).
  { destruct v; try reflexivity. simpl in Hx. discriminate. }
  rewrite Hv, Hx. reflexivity.
Qed.

Lemma inference_ok (g : globals DataFrame) (m : Regressor DataFrame) (x : Float64.t)
      (s' : St m) (values : list pyval) (outs : list string) (d : dict) :
  predicts DataFrame pd_DataFrame g m x s' values ->
  getitem_str (artifacts g) "output_features" = Ok (PyList (map PyStr outs)) ->
  NoDup outs ->
  round_items (combine outs values) = Ok d ->
  inference g m x =
    {| result := Ok (respond (Mapping d) 200);
       trace := [Predict];
       after := {| model := Some {| St := St m; st := s'; predict := predict m |};
                   artifacts := artifacts g |} |}.
Proof.
  intros (columns & df & pv & row & Hc & Hdf & Hp & Hr & Hv) Ho Hnd Hd.
  unfold predict_and_format, call_predict.
  rewrite Hc. simpl. rewrite Hdf, Hp. simpl.
  rewrite (format_prediction_names _ _ _ _ _ _ Ho Hnd Hr Hv Hd). reflexivity.
Qed.

Lemma handler_continue (g : globals DataFrame) (m : Regressor DataFrame) (req : request)
      (features name v : pyval) (x : Float64.t) :
  method req <> "OPTIONS" ->
  model g = Some m ->
  getitem_str (artifacts g) "input_features" = Ok features ->
  getitem_int features 0 = Ok name ->
  data_get (payload req) name = Ok v ->
  py_float v = Ok x ->
  handler g req =
    {| result := result (inference g m x);
       trace := (snd (read_data req) ++ trace (inference g m x))%list;
       after := after (inference g m x) |}.
Proof.
  intros Hm Hg Hf Hn Hd Hx. unfold predict_telemetry.
  destruct (String.eqb_spec (method req) "OPTIONS") as [E | _]; [contradiction |].
  rewrite Hg.
  assert (Ha : is_None (artifacts g) = false).
  { destruct (artifacts g); try reflexivity. simpl in Hf. discriminate. }
  rewrite Ha, (validate_input_continue _ _ _ _ _ _ Hf Hn Hd Hx). reflexivity.
Qed.

Lemma payload_post (req : request) :
  method req = "POST" ->
  payload req = JsonData (get_json req) /\ snd (read_data req) = [ReadJson].
Proof.
  intros H. unfold payload, read_data. rewrite H. simpl. split; reflexivity.
Qed.

Lemma handler_ok (g : globals DataFrame) (m : Regressor DataFrame) (req : request)
      (features name v : pyval) (x : Float64.t)
      (s' : St m) (values : list pyval) (outs : list string) :
  method req <> "OPTIONS" ->
  model g = Some m ->
  getitem_str (artifacts g) "input_features" = Ok features ->
  getitem_int features 0 = Ok name ->
  data_get (payload req) name = Ok v ->
  py_float v = Ok x ->
  getitem_str (artifacts g) "output_features" = Ok (PyList (map PyStr outs)) ->
  NoDup outs ->
  predicts DataFrame pd_DataFrame g m x s' values ->
  (List.length outs <= List.length values)%nat ->
  Forall (fun kv => exists r, round_feature (fst kv) (snd kv) = Ok r)
         (combine outs values) ->
  exists d : dict,
    result (handler g req) =
      Ok {| content := Mapping d; status := 200; response_headers := cors_headers |} /\
    keys d = outs /\
    round_items (combine outs values) = Ok d /\
    trace (handler g req) = (snd (read_data req) ++ [Predict])%list.
Proof.
  intros Hm Hg Hf Hn Hd Hx Ho Hnd Hp Hl Hr.
  destruct (round_items_total _ Hr) as [d Hdict].
  exists d.
  rewrite (handler_continue g m req features name v x Hm Hg Hf Hn Hd Hx).
  rewrite (inference_ok g m x s' values outs d Hp Ho Hnd Hdict). simpl.
  split; [reflexivity |]. split; [| split; [exact Hdict | reflexivity]].
  rewrite (round_items_keys _ _ Hdict). apply keys_combine. exact Hl.
Qed.

(** C1.  With a model and a descriptor whose first input feature is
    [name] and whose output features are the distinct names [outs], a
    POST whose JSON body binds [name] to a text that [float] reads, on
    which the prediction succeeds (the frame is built, [predict] returns
    a first row of at least as many values as there are output names,
    and [round] accepts each of them), is answered 200 with a mapping
    whose keys are [outs], in the order of [outs], each value rounded by
    the rule of its key ([round] on the value's own type, [numpy.float64]
    for the rows of a regressor), and with the CORS headers. *)
Theorem post_valid_number_returns_all_outputs
        (g : globals DataFrame) (m : Regressor DataFrame) (req : request)
        (name : string) (more : list pyval) (outs : list string)
        (json : dict) (s : string) (x : Float64.t)
        (s' : St m) (values : list pyval) :
  model g = Some m ->
  getitem_str (artifacts g) "input_features" = Ok (PyList (PyStr name :: more)) ->
  getitem_str (artifacts g) "output_features" = Ok (PyList (map PyStr outs)) ->
  NoDup outs ->
  method req = "POST" ->
  get_json req = PyDict json ->
  lookup name json = Some (PyStr s) ->
  float_of_string s = Some x ->
  predicts DataFrame pd_DataFrame g m x s' values ->
  (List.length outs <= List.length values)%nat ->
  Forall (fun kv => exists r, round_feature (fst kv) (snd kv) = Ok r)
         (combine outs values) ->
  exists d : dict,
    result (handler g req) =
      Ok {| content := Mapping d; status := 200; response_headers := cors_headers |} /\
    keys d = outs /\
    round_items (combine outs values) = Ok d /\
    trace (handler g req) = [ReadJson; Predict].
Proof.
  intros Hg Hf Ho Hnd Hm Hj Hl Hx Hp Hlen Hr.
  destruct (payload_post req Hm) as [Hpay Hev].
  assert (Hopt : method req <> "OPTIONS") by (rewrite Hm; discriminate).
  assert (Hget : data_get (payload req) (PyStr name) = Ok (PyStr s)).
  { rewrite Hpay, Hj. simpl. rewrite Hl. reflexivity. }
  assert (Hfl : py_float (PyStr s) = Ok x) by (simpl; rewrite Hx; reflexivity).
  destruct (handler_ok g m req (PyList (PyStr name :: more)) (PyStr name) (PyStr s) x
                       s' values outs Hopt Hg Hf eq_refl Hget Hfl Ho Hnd Hp Hlen Hr)
    as (d & H1 & H2 & H3 & H4).
  exists d. rewrite Hev in H4. auto.
Qed.

(** C10.  The texts "nan", "inf" and "Infinity" and the JSON booleans
    pass the coercion: [float] gives NaN, the infinity, 1.0 and 0.0.  A
    request that binds the input feature to any value that [float]
    accepts, finite or not, is not answered by the validation: it goes on
    to the prediction with that float, and is answered 200 with the
    output names when the prediction succeeds. *)
Theorem non_finite_and_boolean_inputs_reach_the_model :
  py_float (PyStr "nan") = Ok Float64.nan /\
  py_float (PyStr "inf") = Ok (Float64.inf false) /\
  py_float (PyStr "Infinity") = Ok (Float64.inf false) /\
  py_float (PyBool true) = Ok (Float64.of_Z 1) /\
  py_float (PyBool false) = Ok (Float64.zero false) /\
  forall (g : globals DataFrame) (m : Regressor DataFrame) (req : request)
         (features name v : pyval) (x : Float64.t),
    method req <> "OPTIONS" ->
    model g = Some m ->
    getitem_str (artifacts g) "input_features" = Ok features ->
    getitem_int features 0 = Ok name ->
    data_get (payload req) name = Ok v ->
    py_float v = Ok x ->
    validate_input (artifacts g) req = (Continue x, snd (read_data req)) /\
    result (handler g req) = result (inference g m x) /\
    forall (s' : St m) (values : list pyval) (outs : list string),
      getitem_str (artifacts g) "output_features" = Ok (PyList (map PyStr outs)) ->
      NoDup outs ->
      predicts DataFrame pd_DataFrame g m x s' values ->
      (List.length outs <= List.length values)%nat ->
      Forall (fun kv => exists r, round_feature (fst kv) (snd kv) = Ok r)
             (combine outs values) ->
      exists d : dict,
        result (handler g req) =
          Ok {| content := Mapping d; status := 200;
                response_headers := cors_headers |} /\
        keys d = outs /\
        In Predict (trace (handler g req)).
Proof.
  repeat (split; [vm_compute; reflexivity |]).
  intros g m req features name v x Hm Hg Hf Hn Hd Hx.
  split; [exact (validate_input_continue _ _ _ _ _ _ Hf Hn Hd Hx) |].
  split; [rewrite (handler_continue g m req features name v x Hm Hg Hf Hn Hd Hx);
          reflexivity |].
  intros s' values outs Ho Hnd Hp Hlen Hr.
  destruct (handler_ok g m req features name v x s' values outs
                       Hm Hg Hf Hn Hd Hx Ho Hnd Hp Hlen Hr)
    as (d & H1 & H2 & H3 & H4).
  exists d. split; [exact H1 |]. split; [exact H2 |].
  rewrite H4. apply in_or_app. right. left. reflexivity.
Qed.

(** ** Rejected values *)




(** ** Integer literals through [float] *)

Ltac by_character c :=
  destruct c as [[] [] [] [] [] [] [] []]; try discriminate; try reflexivity.

Lemma digit_plain (c : ascii) :
  Text.is_digit c = true ->
  Ascii.eqb c "_" = false /\ Text.is_space c = false /\
  0 <= Text.digit_value c <= 9.
Proof.
  by_character c; intros _; (split; [reflexivity | split; [reflexivity |]]);
    vm_compute; split; discriminate.
Qed.

Lemma take_sign_digit (c : ascii) (r : string) :
  Text.is_digit c = true ->
  Text.take_sign (String c r) = (false, String c r).
Proof. by_character c. Qed.

Lemma digit_not_point (c : ascii) (r : string) :
  Text.is_digit c = true ->
  match String c r with
  | String "."%char r' => Text.span_digits r'
  | _ => (EmptyString, String c r)
  end = (EmptyString, String c r).
Proof. by_character c. Qed.

Lemma span_digits_all (s : string) :
  all_digits s = true -> Text.span_digits s = (s, EmptyString).
Proof.
  induction s as [| c r IH]; simpl; [reflexivity |].
  intros H. apply andb_true_iff in H. destruct H as [Hc Hr].
  rewrite Hc, (IH Hr). reflexivity.
Qed.

Lemma span_digits_split (s d r : string) :
  Text.span_digits s = (d, r) -> all_digits d = true /\ s = d ++ r.
Proof.
  revert d r. induction s as [| c s IH]; simpl; intros d r H.
  - inversion H. split; reflexivity.
  - destruct (Text.is_digit c) eqn:Hc.
    + destruct (Text.span_digits s) as [d' t] eqn:E. inversion H; subst.
      destruct (IH d' r eq_refl) as [Hd Hs]. simpl. rewrite Hc, Hd, <- Hs.
      split; reflexivity.
    + inversion H. split; reflexivity.
Qed.

Lemma append_empty (s : string) : s ++ "" = s.
Proof. induction s as [| c s IH]; simpl; [reflexivity | rewrite IH; reflexivity]. Qed.

Lemma remove_underscores_digits (s : string) :
  forall prev : ascii,
    all_digits s = true -> Ascii.eqb prev "_" = false ->
    remove_underscores prev s = Some s.
Proof.
  induction s as [| c r IH]; simpl; intros prev Hs Hp.
  - rewrite Hp. reflexivity.
  - apply andb_true_iff in Hs. destruct Hs as [Hc Hr].
    destruct (digit_plain c Hc) as (Hu & _ & _).
    rewrite Hu, Hp. simpl. rewrite (IH c Hr Hu). reflexivity.
Qed.

Lemma rstrip_digits (s : string) :
  all_digits s = true -> Text.rstrip s = s.
Proof.
  induction s as [| c r IH]; simpl; [reflexivity |].
  intros Hs. apply andb_true_iff in Hs. destruct Hs as [Hc Hr].
  destruct (digit_plain c Hc) as (_ & Hsp & _).
  rewrite Hsp, (IH Hr). reflexivity.
Qed.

Lemma digits_value_from_ge (s : string) :
  forall acc : Z, all_digits s = true -> 0 <= acc -> acc <= Text.digits_value_from acc s.
Proof.
  induction s as [| c r IH]; cbn [Text.digits_value_from all_digits];
    intros acc Hs Ha; [lia |].
  apply andb_true_iff in Hs. destruct Hs as [Hc Hr].
  destruct (digit_plain c Hc) as (_ & _ & Hv).
  specialize (IH (10 * acc + Text.digit_value c) Hr). lia.
Qed.

(** [float] on a minus sign (or none) and decimal digits reads the
    digits as an integer. *)
Lemma float_of_digits (negative : bool) (ds : string) :
  all_digits ds = true ->
  ds <> EmptyString ->
  float_of_string (sign_text negative ++ ds) =
  Some (Float64.of_decimal negative (Text.digits_value ds) 0).
Proof.
  intros Hd Hne. destruct ds as [| c r]; [contradiction |].
  pose proof Hd as Hd'. simpl in Hd'. apply andb_true_iff in Hd'.
  destruct Hd' as [Hc Hr]. destruct (digit_plain c Hc) as (Hu & Hsp & _).
  unfold float_of_string.
  assert (Hrem : remove_underscores zero (sign_text negative ++ String c r) =
                 Some (sign_text negative ++ String c r)).
  { destruct negative; simpl.
    - rewrite Hu. simpl. rewrite (remove_underscores_digits r c Hr Hu). reflexivity.
    - rewrite Hu. simpl. rewrite (remove_underscores_digits r c Hr Hu). reflexivity. }
  rewrite Hrem.
  assert (Hstrip : Text.rstrip (Text.lstrip (sign_text negative ++ String c r)) =
                   sign_text negative ++ String c r).
  { destruct negative; simpl.
    - rewrite Hsp, (rstrip_digits r Hr). reflexivity.
    - rewrite Hsp. simpl. rewrite Hsp, (rstrip_digits r Hr). reflexivity. }
  rewrite Hstrip.
  assert (Hsign : Text.take_sign (sign_text negative ++ String c r) =
                  (negative, String c r)).
  { destruct negative; simpl; [reflexivity | apply take_sign_digit; exact Hc]. }
  unfold strtod. rewrite Hsign, (span_digits_all (String c r) Hd).
  simpl. rewrite append_empty. reflexivity.
Qed.

Lemma of_decimal_integer (negative : bool) (v : Z) :
  0 <= v ->
  (v = 0 -> negative = false) ->
  Float64.of_decimal negative v 0 = Float64.of_Z (if negative then - v else v).
Proof.
  intros Hv H0. destruct v as [| p | p]; [| | lia].
  - rewrite (H0 eq_refl). reflexivity.
  - unfold Float64.of_decimal, Float64.of_Z, Float64.of_pos. simpl.
    rewrite Pos.mul_1_r. destruct negative; reflexivity.
Qed.

Lemma take_minus_text (s s1 : string) (negative : bool) :
  take_minus s = (negative, s1) -> s = sign_text negative ++ s1.
Proof.
  destruct s as [| c r]; simpl; [intros H; inversion H; reflexivity |].
  by_character c; intros H; inversion H; reflexivity.
Qed.

Lemma digit_zero_or_positive (c : ascii) :
  Text.is_digit c = true -> c = "0"%char \/ 1 <= Text.digit_value c.
Proof.
  by_character c; intros _;
    first [left; reflexivity | right; vm_compute; discriminate].
Qed.

Lemma leading_zero_other (c : ascii) (r : string) :
  c <> "0"%char -> leading_zero (String c r) = false.
Proof.
  intros Hc. by_character c. exfalso. apply Hc. reflexivity.
Qed.

Lemma zero_literal (ds : string) :
  all_digits ds = true ->
  ds <> EmptyString ->
  leading_zero ds = false ->
  Text.digits_value ds = 0 ->
  ds = "0".
Proof.
  intros Hd Hne Hl Hv. destruct ds as [| c r]; [contradiction |].
  cbn [all_digits] in Hd. apply andb_true_iff in Hd. destruct Hd as [Hc Hr].
  destruct (digit_zero_or_positive c Hc) as [E | Hpos].
  - subst c. destruct r; [reflexivity | discriminate].
  - exfalso. unfold Text.digits_value in Hv. cbn [Text.digits_value_from] in Hv.
    pose proof (digits_value_from_ge r (10 * 0 + Text.digit_value c) Hr) as Hge.
    lia.
Qed.

Lemma json_fraction_none (r r2 : string) :
  json_fraction r = Some (false, r2) -> r2 = r.
Proof.
  destruct r as [| c r']; simpl; [intros H; inversion H; reflexivity |].
  by_character c; intros H; try (inversion H; reflexivity).
  destruct (Text.span_digits r') as [ds rest]. destruct (Text.is_empty ds); discriminate.
Qed.

Lemma json_exponent_none (r r3 : string) :
  json_exponent r = Some (false, r3) -> r3 = r.
Proof.
  destruct r as [| c r']; simpl; [intros H; inversion H; reflexivity |].
  destruct (Ascii.eqb c "e" || Ascii.eqb c "E").
  - destruct (Text.take_sign r') as [sg r1]. destruct (Text.span_digits r1) as [ds rest].
    destruct (Text.is_empty ds); discriminate.
  - intros H; inversion H; reflexivity.
Qed.

(** An [int] that [json] reads off a literal: the literal is a minus
    sign (or none) and digits, and the digits are "0" when they are worth
    zero. *)
Lemma json_number_int (s : string) (n : Z) :
  json_number s = Some (PyInt n) ->
  exists (negative : bool) (ds : string),
    s = sign_text negative ++ ds /\
    all_digits ds = true /\
    ds <> EmptyString /\
    n = (if negative then - Text.digits_value ds else Text.digits_value ds) /\
    (Text.digits_value ds = 0 -> ds = "0").
Proof.
  unfold json_number.
  destruct (String.eqb s "NaN"); [discriminate |].
  destruct (String.eqb s "Infinity"); [discriminate |].
  destruct (String.eqb s "-Infinity"); [discriminate |].
  unfold json_integer.
  destruct (take_minus s) as [negative s1] eqn:Hsign.
  destruct (Text.span_digits s1) as [ds rest] eqn:Hspan.
  destruct (Text.is_empty ds || leading_zero ds) eqn:Hshape; [discriminate |].
  destruct (json_fraction rest) as [[frac r2] |] eqn:Hfrac; [| discriminate].
  destruct (json_exponent r2) as [[exp r3] |] eqn:Hexp; [| discriminate].
  destruct (Text.is_empty r3) eqn:Hend; simpl; [| discriminate].
  destruct frac; simpl; [destruct (float_of_string s); discriminate |].
  destruct exp; simpl; [destruct (float_of_string s); discriminate |].
  destruct (MAX_STR_DIGITS <? Z.of_nat (String.length ds)); [discriminate |].
  intros H. inversion H as [Hn]. clear H.
  apply json_fraction_none in Hfrac. apply json_exponent_none in Hexp. subst r2 r3.
  destruct rest; [| discriminate].
  destruct (span_digits_split _ _ _ Hspan) as [Hall Hs1].
  rewrite append_empty in Hs1. subst s1.
  apply orb_false_iff in Hshape. destruct Hshape as [Hempty Hlead].
  assert (Hne : ds <> EmptyString) by (intros E; subst ds; discriminate).
  exists negative, ds.
  split; [exact (take_minus_text _ _ _ Hsign) |].
  split; [exact Hall |]. split; [exact Hne |]. split; [reflexivity |].
  exact (zero_literal ds Hall Hne Hlead).
Qed.

Lemma json_number_shape (s : string) (j : pyval) :
  json_number s = Some j ->
  (exists x, j = PyFloat x /\ float_of_string s = Some x) \/ (exists n, j = PyInt n).
Proof.
  unfold json_number.
  destruct (String.eqb_spec s "NaN") as [-> | _].
  { intros H; inversion H. left. eexists. split; [reflexivity | vm_compute; reflexivity]. }
  destruct (String.eqb_spec s "Infinity") as [-> | _].
  { intros H; inversion H. left. eexists. split; [reflexivity | vm_compute; reflexivity]. }
  destruct (String.eqb_spec s "-Infinity") as [-> | _].
  { intros H; inversion H. left. eexists. split; [reflexivity | vm_compute; reflexivity]. }
  destruct (json_integer s) as [[[negative ds] r1] |]; [| discriminate].
  destruct (json_fraction r1) as [[frac r2] |]; [| discriminate].
  destruct (json_exponent r2) as [[exp r3] |]; [| discriminate].
  destruct (negb (Text.is_empty r3)); [discriminate |].
  destruct (frac || exp).
  - destruct (float_of_string s) as [x |]; simpl; [| discriminate].
    intros H; inversion H. left. exists x. split; reflexivity.
  - destruct (MAX_STR_DIGITS <? Z.of_nat (String.length ds)); [discriminate |].
    intros H; inversion H. right. eexists. reflexivity.
Qed.

(** A JSON number and its literal give [float] the same double when they
    convert alike. *)
Lemma json_number_float (s : string) (j : pyval) :
  json_number s = Some j ->
  converts_alike s j ->
  exists x : Float64.t, py_float (PyStr s) = Ok x /\ py_float j = Ok x.
Proof.
  intros Hj Ha.
  destruct (json_number_shape s j Hj) as [(x & -> & Hx) | (n & ->)].
  - exists x. simpl. rewrite Hx. split; reflexivity.
  - destruct Ha as [Hfin Hzero].
    destruct (json_number_int s n Hj) as (negative & ds & Hs & Hall & Hne & Hn & Hz).
    exists (Float64.of_Z n). split.
    + simpl. rewrite Hs, (float_of_digits negative ds Hall Hne).
      rewrite of_decimal_integer.
      * rewrite <- Hn. reflexivity.
      * exact (digits_value_from_ge ds 0 Hall (Z.le_refl 0)).
      * intros Hv. destruct negative; [| reflexivity].
        exfalso. apply Hzero. rewrite Hs, (Hz Hv). reflexivity.
    + simpl. unfold float_of_int. rewrite Hfin. reflexivity.
Qed.

(** ** The query and the JSON body *)

Lemma validate_input_get_post (a : pyval) (k s : string) (j : pyval)
      (req1 req2 : request) :
  method req1 = "GET" -> args req1 = [(k, s)] ->
  method req2 = "POST" -> get_json req2 = PyDict [(k, j)] ->
  json_number s = Some j ->
  converts_alike s j ->
  fst (validate_input a req1) = fst (validate_input a req2).
Proof.
  intros Hm1 Ha1 Hm2 Hj2 Hj Halike.
  destruct (json_number_float s j Hj Halike) as (x & Hxs & Hxj).
  assert (Hnone : is_None j = false).
  { destruct j; try reflexivity. simpl in Hxj. discriminate. }
  unfold validate_input, read_data. rewrite Hm1, Hm2, Ha1, Hj2. simpl.
  destruct (features <- getitem_str a "input_features" ;; getitem_int features 0)
    as [name | e].
  - destruct name as [| b | n | y | k' | l | d | y]; simpl; try reflexivity.
    destruct (String.eqb k k'); simpl; [| reflexivity].
    rewrite Hnone. simpl in Hxs. rewrite Hxj.
    destruct (float_of_string s) as [x' |]; [| discriminate].
    inversion Hxs. reflexivity.
  - destruct (except_input None e). reflexivity.
Qed.

(** C8, amended.  A GET whose query is [k=s] and a POST whose JSON body
    is the object that binds [k] to the number read off the same literal
    [s] get the same response (status, body and headers), whatever the
    globals, and leave the same globals, when the number converts as its
    text does: always for a literal with a fraction or an exponent, as
    120.5, and for an integer literal when it is within the range of a
    float and is not -0. *)
Theorem get_and_post_agree (g : globals DataFrame) (k s : string) (j : pyval)
        (req1 req2 : request) :
  method req1 = "GET" ->
  args req1 = [(k, s)] ->
  method req2 = "POST" ->
  get_json req2 = PyDict [(k, j)] ->
  json_number s = Some j ->
  converts_alike s j ->
  result (handler g req1) = result (handler g req2) /\
  after (handler g req1) = after (handler g req2).
Proof.
  intros Hm1 Ha1 Hm2 Hj2 Hj Halike.
  pose proof (validate_input_get_post (artifacts g) k s j req1 req2
                                      Hm1 Ha1 Hm2 Hj2 Hj Halike) as Hsame.
  unfold predict_telemetry. rewrite Hm1, Hm2. simpl.
  destruct (model g) as [m |]; [| split; reflexivity].
  destruct (is_None (artifacts g)); [split; reflexivity |].
  destruct (validate_input (artifacts g) req1) as [st1 ev1].
  destruct (validate_input (artifacts g) req2) as [st2 ev2].
  simpl in Hsame. subst st2.
  destruct st1; simpl; split; reflexivity.
Qed.

(** ** The paths of the validation *)

Lemma handler_loaded (g : globals DataFrame) (m : Regressor DataFrame) (req : request) :
  method req <> "OPTIONS" ->
  model g = Some m ->
  artifacts g <> PyNone ->
  handler g req =
    match validate_input (artifacts g) req with
    | (Return r, ev) => {| result := Ok r; trace := ev; after := g |}
    | (Abort e, ev) => {| result := Raise e; trace := ev; after := g |}
    | (Continue x, ev) =>
        {| result := result (inference g m x);
           trace := (ev ++ trace (inference g m x))%list;
           after := after (inference g m x) |}
    end.
Proof.
  intros Hm Hg Ha. unfold predict_telemetry.
  destruct (String.eqb_spec (method req) "OPTIONS") as [E | _]; [contradiction |].
  rewrite Hg.
  destruct (artifacts g); try reflexivity. contradiction.
Qed.

Lemma validate_input_events (a : pyval) (req : request) :
  ~ In Predict (snd (validate_input a req)).
Proof.
  assert (Hread : ~ In Predict (snd (read_data req))).
  { unfold read_data. destruct (String.eqb (method req) "POST"); simpl;
      intros [H | []]; discriminate. }
  assert (Hexc : forall n e, ~ In Predict (snd (except_input n e))).
  { intros n e. unfold except_input.
    destruct (is_ValueError_or_TypeError e); [destruct n; simpl; tauto |].
    destruct (is_Exception e); simpl; [| tauto].
    intros [H | []]; discriminate. }
  assert (Happ : forall n e s ev',
             except_input n e = (s, ev') ->
             ~ In Predict (snd (read_data req) ++ ev')%list).
  { intros n e s ev' E Hin. apply in_app_or in Hin. destruct Hin as [Hin | Hin].
    - exact (Hread Hin).
    - apply (Hexc n e). rewrite E. exact Hin. }
  unfold validate_input. destruct (read_data req) as [data ev] eqn:Hrd. simpl in *.
  destruct (data_is_None data); [exact Hread |].
  destruct (features <- getitem_str a "input_features" ;; getitem_int features 0)
    as [name | e].
  - destruct (data_get data name) as [raw | e].
    + destruct (is_None raw); [exact Hread |].
      destruct (py_float raw) as [x | e]; [exact Hread |].
      destruct (except_input (Some name) e) as [s ev'] eqn:E. simpl. eapply Happ; eauto.
    + destruct (except_input (Some name) e) as [s ev'] eqn:E. simpl. eapply Happ; eauto.
  - destruct (except_input None e) as [s ev'] eqn:E. simpl. eapply Happ; eauto.
Qed.

(** X1.  With the context loaded, a POST for which [get_json] gives
    [None] (no body, a body that is no JSON, or the JSON [null]) is
    answered 400 "Missing or invalid JSON payload."; the descriptor is not
    consulted, [predict] is not called, the globals stay. *)
Theorem post_without_json_is_rejected
        (g : globals DataFrame) (m : Regressor DataFrame) (req : request) :
  model g = Some m ->
  artifacts g <> PyNone ->
  method req = "POST" ->
  get_json req = PyNone ->
  handler g req =
    {| result := Ok {| content := Text "Bad Request: Missing or invalid JSON payload.";
                       status := 400;
                       response_headers := cors_headers |};
       trace := [ReadJson];
       after := g |}.
Proof.
  intros Hg Ha Hm Hj.
  rewrite (handler_loaded g m req); [| rewrite Hm; discriminate | exact Hg | exact Ha].
  unfold validate_input, read_data. rewrite Hm, Hj. reflexivity.
Qed.

(** X2.  With the context loaded and the input feature [name], a request
    whose payload is a mapping (a JSON object, or the query of a method
    other than POST) without the key [name] is answered 400 with a text
    that names the field; [predict] is not called, the globals stay. *)
Theorem missing_field_is_named
        (g : globals DataFrame) (m : Regressor DataFrame) (req : request)
        (name : string) (more : list pyval) :
  method req <> "OPTIONS" ->
  model g = Some m ->
  getitem_str (artifacts g) "input_features" = Ok (PyList (PyStr name :: more)) ->
  is_mapping (payload req) = true ->
  binding (payload req) name = None ->
  handler g req =
    {| result := Ok {| content := Text ("Bad Request: Missing '" ++ name ++ "' parameter.");
                       status := 400;
                       response_headers := cors_headers |};
       trace := snd (read_data req);
       after := g |}.
Proof.
  intros Hm Hg Hf Hmap Hb.
  assert (Ha : artifacts g <> PyNone).
  { intros E. rewrite E in Hf. discriminate. }
  rewrite (handler_loaded g m req Hm Hg Ha).
  unfold validate_input, payload in *. destruct (read_data req) as [data ev]. simpl in *.
  rewrite Hf. simpl.
  destruct data as [j | a]; simpl in *.
  - destruct j; try discriminate. simpl. rewrite Hb. reflexivity.
  - destruct (first_value name a); [discriminate |]. reflexivity.
Qed.

(** X3.  With the context loaded, a POST whose JSON body is a value that
    is neither [null] nor an object (a list, a text, a number, a boolean)
    has no [get]: the [AttributeError] is caught by the last clause, the
    answer is 400 "Could not parse input." and the error is printed. *)
Theorem json_that_is_no_object_is_rejected
        (g : globals DataFrame) (m : Regressor DataFrame) (req : request)
        (features name : pyval) :
  model g = Some m ->
  getitem_str (artifacts g) "input_features" = Ok features ->
  getitem_int features 0 = Ok name ->
  method req = "POST" ->
  is_None (get_json req) = false ->
  is_mapping (JsonData (get_json req)) = false ->
  handler g req =
    {| result := Ok {| content := Text "Bad Request: Could not parse input.";
                       status := 400;
                       response_headers := cors_headers |};
       trace := [ReadJson; PrintError "Error parsing input: "];
       after := g |}.
Proof.
  intros Hg Hf Hn Hm Hnone Hmap.
  assert (Ha : artifacts g <> PyNone).
  { intros E. rewrite E in Hf. discriminate. }
  rewrite (handler_loaded g m req); [| rewrite Hm; discriminate | exact Hg | exact Ha].
  unfold validate_input, read_data. rewrite Hm. simpl. rewrite Hnone, Hf. simpl.
  rewrite Hn.
  destruct (get_json req); simpl in *; try discriminate; reflexivity.
Qed.

(** X4.  With a model and a descriptor that is a mapping without the key
    [input_features], or with an empty list under it, line 80 raises a
    [KeyError] or an [IndexError]: every request that has a payload is
    answered 400 "Could not parse input.", whatever the payload holds. *)
Theorem descriptor_without_input_feature
        (g : globals DataFrame) (m : Regressor DataFrame) (req : request) (d : dict) :
  method req <> "OPTIONS" ->
  model g = Some m ->
  artifacts g = PyDict d ->
  lookup "input_features" d = None \/ lookup "input_features" d = Some (PyList []) ->
  data_is_None (payload req) = false ->
  handler g req =
    {| result := Ok {| content := Text "Bad Request: Could not parse input.";
                       status := 400;
                       response_headers := cors_headers |};
       trace := (snd (read_data req) ++ [PrintError "Error parsing input: "])%list;
       after := g |}.
Proof.
  intros Hm Hg Ha Hd Hp.
  rewrite (handler_loaded g m req Hm Hg); [| rewrite Ha; discriminate].
  unfold validate_input, payload in *. destruct (read_data req) as [data ev]. simpl in *.
  rewrite Hp, Ha. simpl.
  destruct Hd as [Hd | Hd]; rewrite Hd; reflexivity.
Qed.

(** X5.  With a model and a descriptor that is neither [None] nor a
    mapping (a list, a text, a number, a boolean), line 80 raises a
    [TypeError] before [input_feature_name] is assigned; the clause of
    line 88 then formats that name and raises [UnboundLocalError]: the
    handler returns no response to a request that has a payload.  Only a
    scalar of [numpy], which no JSON file holds, raises [IndexError]
    there and is answered 400 by the clause of line 90. *)
Theorem descriptor_that_is_no_mapping
        (g : globals DataFrame) (m : Regressor DataFrame) (req : request) :
  method req <> "OPTIONS" ->
  model g = Some m ->
  artifacts g <> PyNone ->
  (forall d, artifacts g <> PyDict d) ->
  data_is_None (payload req) = false ->
  handler g req =
    if is_numpy (artifacts g) then
      {| result := Ok {| content := Text "Bad Request: Could not parse input.";
                         status := 400;
                         response_headers := cors_headers |};
         trace := (snd (read_data req) ++ [PrintError "Error parsing input: "])%list;
         after := g |}
    else
      {| result := Raise UnboundLocalError;
         trace := snd (read_data req);
         after := g |}.
Proof.
  intros Hm Hg Ha Hd Hp.
  rewrite (handler_loaded g m req Hm Hg Ha).
  unfold validate_input, payload in *. destruct (read_data req) as [data ev]. simpl in *.
  rewrite Hp.
  destruct (artifacts g) as [| b | n | x | s | l | d | x]; simpl;
    try (rewrite app_nil_r; reflexivity); try reflexivity.
  exfalso. apply (Hd d). reflexivity.
Qed.

(** X7.  Line 73: a method that is neither OPTIONS nor POST is served
    as a GET.  The run reads the query only; it is the run of the GET
    with the same query, whatever the method and the body are. *)
Theorem other_methods_are_served_as_get (g : globals DataFrame) (req : request) :
  method req <> "OPTIONS" ->
  method req <> "POST" ->
  handler g req = handler g {| method := "GET"; get_json := PyNone; args := args req |}.
Proof.
  intros Ho Hp. unfold predict_telemetry, validate_input, read_data. simpl.
  destruct (String.eqb_spec (method req) "OPTIONS") as [E | _]; [contradiction |].
  destruct (String.eqb_spec (method req) "POST") as [E | _]; [contradiction |].
  reflexivity.
Qed.

Lemma data_get_binding (d : request_data) (name : string) :
  is_mapping d = true ->
  data_is_None d = false /\
  data_get d (PyStr name) = Ok (or_None (binding d name)).
Proof.
  destruct d as [j | a]; simpl.
  - destruct j; try discriminate. intros _. split; reflexivity.
  - intros _. split; [reflexivity |].
    destruct (first_value name a); reflexivity.
Qed.

(** X8.  With the input feature [name], two requests of the same method
    whose payloads are mappings that bind [name] alike (to the same
    value, or both to none) have the same run: the other keys of the
    body or of the query, and the later values of a repeated query
    parameter, are not looked at. *)
Theorem only_the_input_feature_is_read
        (g : globals DataFrame) (req1 req2 : request)
        (name : string) (more : list pyval) :
  getitem_str (artifacts g) "input_features" = Ok (PyList (PyStr name :: more)) ->
  method req1 = method req2 ->
  is_mapping (payload req1) = true ->
  is_mapping (payload req2) = true ->
  binding (payload req1) name = binding (payload req2) name ->
  handler g req1 = handler g req2.
Proof.
  intros Hf Hm H1 H2 Hb.
  destruct (data_get_binding _ name H1) as [Hn1 Hg1].
  destruct (data_get_binding _ name H2) as [Hn2 Hg2].
  assert (Hv : validate_input (artifacts g) req1 = validate_input (artifacts g) req2).
  { unfold validate_input, payload in *.
    assert (Hev : snd (read_data req1) = snd (read_data req2)).
    { unfold read_data. rewrite Hm.
      destruct (String.eqb (method req2) "POST"); reflexivity. }
    destruct (read_data req1) as [d1 ev1]. destruct (read_data req2) as [d2 ev2].
    simpl in *. subst ev2.
    rewrite Hn1, Hn2, Hf. simpl. rewrite Hg1, Hg2, Hb. reflexivity. }
  unfold predict_telemetry. rewrite Hm, Hv. reflexivity.
Qed.

(** ** The prediction block, case by case *)

Lemma accepted_continues (g : globals DataFrame) (m : Regressor DataFrame)
      (req : request) (x : Float64.t) :
  method req <> "OPTIONS" ->
  model g = Some m ->
  accepts (artifacts g) req x ->
  handler g req =
    {| result := result (inference g m x);
       trace := (snd (read_data req) ++ trace (inference g m x))%list;
       after := after (inference g m x) |}.
Proof.
  intros Hm Hg (features & name & v & Hf & Hn & Hd & Hx).
  exact (handler_continue g m req features name v x Hm Hg Hf Hn Hd Hx).
Qed.

(** X9.  When the validation lets the request through and
    [model.predict] raises an [Exception], the request is answered 500
    "Prediction failed." with the CORS headers, the error is printed after
    the call, and the model keeps the state in which the failed call left
    it. *)
Theorem failed_prediction_is_answered_500
        (g : globals DataFrame) (m : Regressor DataFrame) (req : request)
        (x : Float64.t) (columns : pyval) (input_df : DataFrame)
        (e : exn) (s' : St m) :
  method req <> "OPTIONS" ->
  model g = Some m ->
  accepts (artifacts g) req x ->
  getitem_str (artifacts g) "input_features" = Ok columns ->
  pd_DataFrame [[x]] columns = Ok input_df ->
  predict m (st m) input_df = (Raise e, s') ->
  is_Exception e = true ->
  handler g req =
    {| result := Ok {| content := Text "Internal Server Error: Prediction failed.";
                       status := 500;
                       response_headers := cors_headers |};
       trace := (snd (read_data req) ++
                 [Predict; PrintError "Error during prediction: "])%list;
       after := {| model := Some {| St := St m; st := s'; predict := predict m |};
                   artifacts := artifacts g |} |}.
Proof.
  intros Hm Hg Hacc Hc Hdf Hp He.
  rewrite (accepted_continues g m req x Hm Hg Hacc).
  unfold predict_and_format, call_predict.
  rewrite Hc. simpl. rewrite Hdf, Hp. simpl.
  unfold except_predict. rewrite He. reflexivity.
Qed.

(** X10.  The clause of line 121 catches [Exception] only: when
    [model.predict] raises [SystemExit] or [KeyboardInterrupt], the
    handler returns no response and prints nothing, the exception leaves
    it. *)
Theorem interrupt_during_prediction_propagates
        (g : globals DataFrame) (m : Regressor DataFrame) (req : request)
        (x : Float64.t) (columns : pyval) (input_df : DataFrame)
        (e : exn) (s' : St m) :
  method req <> "OPTIONS" ->
  model g = Some m ->
  accepts (artifacts g) req x ->
  getitem_str (artifacts g) "input_features" = Ok columns ->
  pd_DataFrame [[x]] columns = Ok input_df ->
  predict m (st m) input_df = (Raise e, s') ->
  is_Exception e = false ->
  result (handler g req) = Raise e /\
  trace (handler g req) = (snd (read_data req) ++ [Predict])%list.
Proof.
  intros Hm Hg Hacc Hc Hdf Hp He.
  rewrite (accepted_continues g m req x Hm Hg Hacc).
  unfold predict_and_format, call_predict.
  rewrite Hc. simpl. rewrite Hdf, Hp. simpl.
  unfold except_predict. rewrite He. simpl. split; reflexivity.
Qed.

(** X11.  When the validation lets the request through and
    [pd.DataFrame] raises an [Exception], the request is answered 500
    "Prediction failed." without a call of [model.predict]; the globals
    stay. *)
Theorem failed_frame_is_answered_500
        (g : globals DataFrame) (m : Regressor DataFrame) (req : request)
        (x : Float64.t) (columns : pyval) (e : exn) :
  method req <> "OPTIONS" ->
  model g = Some m ->
  accepts (artifacts g) req x ->
  getitem_str (artifacts g) "input_features" = Ok columns ->
  pd_DataFrame [[x]] columns = Raise e ->
  is_Exception e = true ->
  handler g req =
    {| result := Ok {| content := Text "Internal Server Error: Prediction failed.";
                       status := 500;
                       response_headers := cors_headers |};
       trace := (snd (read_data req) ++ [PrintError "Error during prediction: "])%list;
       after := g |}.
Proof.
  intros Hm Hg Hacc Hc Hdf He.
  rewrite (accepted_continues g m req x Hm Hg Hacc).
  unfold predict_and_format.
  rewrite Hc. simpl. rewrite Hdf.
  unfold except_predict. rewrite He. reflexivity.
Qed.

(** *** What the formatting can raise *)

Ltac raised := intros H; inversion H; reflexivity.

Lemma getitem_str_raises (v : pyval) (k : string) (e : exn) :
  getitem_str v k = Raise e -> is_Exception e = true.
Proof.
  destruct v; simpl; try raised. destruct (lookup k d); raised.
Qed.

Lemma index_raises {A : Type} (l : list A) (i : Z) (e : exn) :
  index l i = Raise e -> is_Exception e = true.
Proof.
  unfold index.
  destruct ((if i <? 0 then i + Z.of_nat (List.length l) else i) <? 0); [raised |].
  destruct (nth_error l _); raised.
Qed.

Lemma getitem_int_raises (v : pyval) (i : Z) (e : exn) :
  getitem_int v i = Raise e -> is_Exception e = true.
Proof.
  destruct v; simpl; try raised; apply index_raises.
Qed.

Lemma py_iter_raises (v : pyval) (e : exn) :
  py_iter v = Raise e -> is_Exception e = true.
Proof. destruct v; simpl; raised. Qed.

Lemma dict_of_pairs_raises (pairs : list (pyval * pyval)) :
  forall (d : dict) (e : exn),
    dict_of_pairs pairs d = Raise e -> is_Exception e = true.
Proof.
  induction pairs as [| [k v] pairs IH]; intros d e; simpl; [raised |].
  destruct k; try raised. apply IH.
Qed.

Lemma py_round_raises (v : pyval) (n : Z) (e : exn) :
  py_round v n = Raise e -> is_Exception e = true.
Proof.
  destruct v; simpl; try raised.
  - destruct (Float64.round x n); raised.
  - destruct (Numpy.is_int n); raised.
Qed.

Lemma round_feature_raises (key : string) (v : pyval) (e : exn) :
  round_feature key v = Raise e -> is_Exception e = true.
Proof.
  rewrite round_feature_table. apply py_round_raises.
Qed.

Lemma round_loop_raises (n : nat) :
  forall (i : nat) (d : dict) (e : exn),
    round_loop n i d = Raise e -> is_Exception e = true.
Proof.
  induction n as [| n IH]; intros i d e; simpl; [raised |].
  destruct (nth_error d i) as [[key value] |]; [| raised].
  destruct (round_feature key value) as [r | e'] eqn:E; simpl.
  - apply IH.
  - intros H; inversion H; subst. eapply round_feature_raises; eauto.
Qed.

Lemma format_prediction_raises (a pv : pyval) (e : exn) :
  format_prediction a pv = Raise e -> is_Exception e = true.
Proof.
  unfold format_prediction.
  destruct (getitem_str a "output_features") as [outs | e1] eqn:E1; simpl;
    [| intros H; inversion H; subst; eapply getitem_str_raises; eauto].
  destruct (getitem_int pv 0) as [row | e2] eqn:E2; simpl;
    [| intros H; inversion H; subst; eapply getitem_int_raises; eauto].
  destruct (py_iter outs) as [names | e3] eqn:E3; simpl;
    [| intros H; inversion H; subst; eapply py_iter_raises; eauto].
  destruct (py_iter row) as [values | e4] eqn:E4; simpl;
    [| intros H; inversion H; subst; eapply py_iter_raises; eauto].
  destruct (dict_of_pairs (combine names values) []) as [d | e5] eqn:E5; simpl;
    [| intros H; inversion H; subst; eapply dict_of_pairs_raises; eauto].
  apply round_loop_raises.
Qed.

Lemma except_predict_caught (e : exn) :
  is_Exception e = true ->
  except_predict e =
    (Ok (respond (Text "Internal Server Error: Prediction failed.") 500),
     [PrintError "Error during prediction: "]).
Proof. intros H. unfold except_predict. rewrite H. reflexivity. Qed.

(** X12.  Once the validation has let a request through, it is never
    answered 400.  With a [pd.DataFrame] and a [predict] that raise
    nothing outside [Exception], the handler returns a response: 200 with
    a mapping, or 500 "Prediction failed."; whatever goes wrong in the
    formatting of the prediction (a missing [output_features], a
    prediction without a row 0, a name that is no text, a value that
    [round] refuses) is answered 500. *)
Theorem accepted_request_is_answered_200_or_500
        (g : globals DataFrame) (m : Regressor DataFrame) (req : request)
        (x : Float64.t) :
  method req <> "OPTIONS" ->
  model g = Some m ->
  accepts (artifacts g) req x ->
  (forall columns e, pd_DataFrame [[x]] columns = Raise e -> is_Exception e = true) ->
  (forall df e s', predict m (st m) df = (Raise e, s') -> is_Exception e = true) ->
  (exists d : dict,
     result (handler g req) =
       Ok {| content := Mapping d; status := 200; response_headers := cors_headers |}) \/
  result (handler g req) =
    Ok {| content := Text "Internal Server Error: Prediction failed.";
          status := 500; response_headers := cors_headers |}.
Proof.
  intros Hm Hg Hacc Hframe Hpred.
  rewrite (accepted_continues g m req x Hm Hg Hacc). simpl.
  unfold predict_and_format.
  destruct (getitem_str (artifacts g) "input_features") as [columns | e] eqn:Ec; simpl.
  - destruct (pd_DataFrame [[x]] columns) as [df | e] eqn:Edf.
    + unfold call_predict.
      destruct (predict m (st m) df) as [[pv | e] s'] eqn:Ep; simpl.
      * destruct (format_prediction (artifacts g) pv) as [d | e] eqn:Ef.
        -- left. exists d. reflexivity.
        -- right. rewrite (except_predict_caught e (format_prediction_raises _ _ _ Ef)).
           reflexivity.
      * right. rewrite (except_predict_caught e (Hpred _ _ _ Ep)). reflexivity.
    + right. rewrite (except_predict_caught e (Hframe _ _ Edf)). reflexivity.
  - right. rewrite (except_predict_caught e (getitem_str_raises _ _ _ Ec)). reflexivity.
Qed.

(** ** The keys of the prediction mapping *)

Lemma keys_dict_set_present (d : dict) (k : string) (v : pyval) :
  In k (keys d) -> keys (dict_set k v d) = keys d.
Proof.
  induction d as [| [k' v'] d IH]; simpl; intros Hin; [contradiction |].
  destruct (String.eqb_spec k' k) as [E | N]; [reflexivity |].
  simpl. f_equal. apply IH. destruct Hin as [E | Hin]; [contradiction | exact Hin].
Qed.

Lemma keys_dict_set (d : dict) (k : string) (v : pyval) :
  keys (dict_set k v d) = keys d \/
  (~ In k (keys d) /\ keys (dict_set k v d) = (keys d ++ [k])%list).
Proof.
  destruct (in_dec string_dec k (keys d)) as [Hin | Hout].
  - left. apply keys_dict_set_present. exact Hin.
  - right. split; [exact Hout |].
    rewrite (dict_set_absent d k v Hout). unfold keys. rewrite map_app. reflexivity.
Qed.

Lemma NoDup_snoc (l : list string) (k : string) :
  NoDup l -> ~ In k l -> NoDup (l ++ [k])%list.
Proof.
  intros Hl Hk. apply NoDup_app.
  - exact Hl.
  - constructor; [intros [] | constructor].
  - intros a Ha [E | []]. subst a. exact (Hk Ha).
Qed.

Lemma dict_of_pairs_keys (pairs : list (pyval * pyval)) :
  forall d d' : dict,
    dict_of_pairs pairs d = Ok d' ->
    NoDup (keys d) ->
    NoDup (keys d') /\
    forall k, In k (keys d') -> In k (keys d) \/ In (PyStr k) (map fst pairs).
Proof.
  induction pairs as [| [k v] pairs IH]; intros d d'; simpl.
  - intros H Hnd. inversion H; subst. split; [exact Hnd | tauto].
  - destruct k; try discriminate. intros H Hnd.
    destruct (keys_dict_set d s v) as [E | [Hout E]].
    + destruct (IH _ _ H) as [H1 H2]; [rewrite E; exact Hnd |].
      split; [exact H1 |]. intros k Hk. destruct (H2 k Hk) as [Hin | Hin].
      * left. rewrite E in Hin. exact Hin.
      * right. right. exact Hin.
    + destruct (IH _ _ H) as [H1 H2]; [rewrite E; apply NoDup_snoc; assumption |].
      split; [exact H1 |]. intros k Hk. destruct (H2 k Hk) as [Hin | Hin].
      * rewrite E in Hin. apply in_app_or in Hin. destruct Hin as [Hin | [Ek | []]].
        -- left. exact Hin.
        -- right. left. rewrite Ek. reflexivity.
      * right. right. exact Hin.
Qed.

Lemma round_loop_keys (n : nat) :
  forall (i : nat) (d d' : dict),
    round_loop n i d = Ok d' -> keys d' = keys d.
Proof.
  induction n as [| n IH]; intros i d d'; simpl.
  - intros H; inversion H; reflexivity.
  - destruct (nth_error d i) as [[key value] |] eqn:E.
    + destruct (round_feature key value) as [r | e]; simpl; [| discriminate].
      intros H. rewrite (IH _ _ _ H). apply keys_dict_set_present.
      apply nth_error_In in E. unfold keys.
      apply in_map_iff. exists (key, value). split; [reflexivity | exact E].
    + intros H; inversion H; reflexivity.
Qed.

Lemma NoDup_map_PyStr (l : list string) :
  NoDup l -> NoDup (map PyStr l).
Proof.
  induction 1 as [| k l Hk _ IH]; simpl; constructor; [| exact IH].
  intros Hin. apply in_map_iff in Hin. destruct Hin as [k' [E Hin]].
  inversion E; subst. exact (Hk Hin).
Qed.

Lemma format_prediction_keys (a pv : pyval) (d : dict) :
  format_prediction a pv = Ok d ->
  NoDup (keys d) /\
  exists outs names,
    getitem_str a "output_features" = Ok outs /\
    py_iter outs = Ok names /\
    (List.length d <= List.length names)%nat /\
    forall k, In k (keys d) -> In (PyStr k) names.
Proof.
  unfold format_prediction.
  destruct (getitem_str a "output_features") as [outs | e]; simpl; [| discriminate].
  destruct (getitem_int pv 0) as [row | e]; simpl; [| discriminate].
  destruct (py_iter outs) as [names | e] eqn:En; simpl; [| discriminate].
  destruct (py_iter row) as [values | e]; simpl; [| discriminate].
  destruct (dict_of_pairs (combine names values) []) as [d0 | e] eqn:E; simpl;
    [| discriminate].
  intros H. pose proof (round_loop_keys _ _ _ _ H) as Hk.
  destruct (dict_of_pairs_keys _ _ _ E (NoDup_nil _)) as [Hnd Hin].
  assert (Hsub : forall k, In k (keys d) -> In (PyStr k) names).
  { intros k Hk'. rewrite Hk in Hk'. destruct (Hin k Hk') as [[] | Hc].
    apply in_map_iff in Hc. destruct Hc as [[k0 v0] [Ek Hc]]. simpl in Ek. subst k0.
    apply in_combine_l in Hc. exact Hc. }
  rewrite <- Hk in Hnd.
  split; [exact Hnd |].
  exists outs, names. split; [reflexivity |]. split; [exact En |].
  split; [| exact Hsub].
  assert (Hl : List.length d = List.length (map PyStr (keys d))).
  { unfold keys. rewrite !length_map. reflexivity. }
  rewrite Hl. apply NoDup_incl_length.
  - apply NoDup_map_PyStr. exact Hnd.
  - intros v Hv. apply in_map_iff in Hv. destruct Hv as [k [Ev Hk']]. subst v.
    apply Hsub. exact Hk'.
Qed.

(** ** Every response, by the stage that returns it *)

Lemma fstring_is_text (before : string) (v : pyval) (after : string) :
  is_text (fstring before v after) = true.
Proof. destruct v; reflexivity. Qed.

Lemma except_input_rejects (name : option pyval) (e : exn) (r : response) (ev : list event) :
  except_input name e = (Return r, ev) ->
  status r = 400 /\ is_text (content r) = true.
Proof.
  unfold except_input.
  destruct (is_ValueError_or_TypeError e).
  - destruct name; intros H; inversion H; subst. simpl.
    split; [reflexivity | apply fstring_is_text].
  - destruct (is_Exception e); intros H; inversion H; subst. split; reflexivity.
Qed.

Lemma except_input_stops (name : option pyval) (e : exn) (x : Float64.t) (ev : list event) :
  except_input name e <> (Continue x, ev).
Proof.
  unfold except_input.
  destruct (is_ValueError_or_TypeError e); [destruct name; discriminate |].
  destruct (is_Exception e); discriminate.
Qed.

Lemma validate_input_rejects (a : pyval) (req : request) (r : response) (ev : list event) :
  validate_input a req = (Return r, ev) ->
  status r = 400 /\ is_text (content r) = true.
Proof.
  unfold validate_input.
  destruct (read_data req) as [data ev0].
  destruct (data_is_None data).
  - intros H; inversion H; subst. split; reflexivity.
  - destruct (features <- getitem_str a "input_features" ;; getitem_int features 0)
      as [name | e].
    + destruct (data_get data name) as [raw | e].
      * destruct (is_None raw).
        -- intros H; inversion H; subst. simpl.
           split; [reflexivity | apply fstring_is_text].
        -- destruct (py_float raw) as [x | e].
           ++ intros H; inversion H.
           ++ destruct (except_input (Some name) e) as [s ev'] eqn:E.
              intros H; inversion H; subst. eapply except_input_rejects; eauto.
      * destruct (except_input (Some name) e) as [s ev'] eqn:E.
        intros H; inversion H; subst. eapply except_input_rejects; eauto.
    + destruct (except_input None e) as [s ev'] eqn:E.
      intros H; inversion H; subst. eapply except_input_rejects; eauto.
Qed.

Lemma validate_input_accepts (a : pyval) (req : request) (x : Float64.t) (ev : list event) :
  validate_input a req = (Continue x, ev) ->
  accepts a req x /\ ev = snd (read_data req).
Proof.
  unfold accepts, validate_input, payload.
  destruct (read_data req) as [data ev0]. simpl.
  destruct (data_is_None data); [discriminate |].
  destruct (getitem_str a "input_features") as [features | e] eqn:Ef; simpl.
  - destruct (getitem_int features 0) as [name | e] eqn:En.
    + destruct (data_get data name) as [raw | e] eqn:Ed.
      * destruct (is_None raw); [discriminate |].
        destruct (py_float raw) as [x' | e] eqn:Ex.
        -- intros H; inversion H; subst.
           split; [| reflexivity]. exists features, name, raw. auto.
        -- destruct (except_input (Some name) e) as [s ev'] eqn:E.
           intros H; inversion H; subst. exfalso. exact (except_input_stops _ _ _ _ E).
      * destruct (except_input (Some name) e) as [s ev'] eqn:E.
        intros H; inversion H; subst. exfalso. exact (except_input_stops _ _ _ _ E).
    + destruct (except_input None e) as [s ev'] eqn:E.
      intros H; inversion H; subst. exfalso. exact (except_input_stops _ _ _ _ E).
  - destruct (except_input None e) as [s ev'] eqn:E.
    intros H; inversion H; subst. exfalso. exact (except_input_stops _ _ _ _ E).
Qed.

Lemma except_predict_response (e : exn) (r : response) (ev : list event) :
  except_predict e = (Ok r, ev) ->
  r = respond (Text "Internal Server Error: Prediction failed.") 500.
Proof.
  unfold except_predict. destruct (is_Exception e); intros H; inversion H; reflexivity.
Qed.

Lemma inference_response (g : globals DataFrame) (m : Regressor DataFrame)
      (x : Float64.t) (r : response) :
  result (inference g m x) = Ok r ->
  (exists d pv,
     r = respond (Mapping d) 200 /\
     format_prediction (artifacts g) pv = Ok d /\
     trace (inference g m x) = [Predict]) \/
  r = respond (Text "Internal Server Error: Prediction failed.") 500.
Proof.
  unfold predict_and_format.
  destruct (columns <- getitem_str (artifacts g) "input_features" ;;
            pd_DataFrame [[x]] columns) as [df | e].
  - destruct (call_predict DataFrame m df) as [[pv | e] m']; simpl.
    + destruct (format_prediction (artifacts g) pv) as [d | e] eqn:Ef.
      * simpl. intros H; inversion H; subst. left. exists d, pv. auto.
      * destruct (except_predict e) as [r0 ev] eqn:E. simpl.
        intros H; subst. right. eapply except_predict_response; eauto.
    + destruct (except_predict e) as [r0 ev] eqn:E. simpl.
      intros H; subst. right. eapply except_predict_response; eauto.
  - destruct (except_predict e) as [r0 ev] eqn:E. simpl.
    intros H; subst. right. eapply except_predict_response; eauto.
Qed.

Lemma inference_context (g : globals DataFrame) (m : Regressor DataFrame) (x : Float64.t) :
  artifacts (after (inference g m x)) = artifacts g /\
  (model g <> None -> model (after (inference g m x)) <> None).
Proof.
  unfold predict_and_format.
  destruct (columns <- getitem_str (artifacts g) "input_features" ;;
            pd_DataFrame [[x]] columns) as [df | e].
  - destruct (call_predict DataFrame m df) as [pv m'].
    destruct (prediction_values <- pv ;; format_prediction (artifacts g) prediction_values).
    + simpl. split; [reflexivity | discriminate].
    + destruct (except_predict e). simpl. split; [reflexivity | discriminate].
  - destruct (except_predict e). simpl. split; [reflexivity | tauto].
Qed.

Lemma handler_response (g : globals DataFrame) (req : request) (r : response) :
  result (handler g req) = Ok r ->
  (method req = "OPTIONS" /\ r = respond (Text "") 204 /\
   trace (handler g req) = [] /\ after (handler g req) = g) \/
  (method req <> "OPTIONS" /\ unloaded g /\
   r = respond (Text "Internal Server Error: Model not loaded") 500 /\
   ~ In Predict (trace (handler g req)) /\ after (handler g req) = g) \/
  (method req <> "OPTIONS" /\ loaded g /\
   status r = 400 /\ is_text (content r) = true /\
   ~ In Predict (trace (handler g req)) /\ after (handler g req) = g) \/
  (method req <> "OPTIONS" /\ loaded g /\
   exists d pv,
     r = respond (Mapping d) 200 /\
     format_prediction (artifacts g) pv = Ok d /\
     trace (handler g req) = (snd (read_data req) ++ [Predict])%list) \/
  (method req <> "OPTIONS" /\ loaded g /\
   r = respond (Text "Internal Server Error: Prediction failed.") 500).
Proof.
  destruct (String.eqb_spec (method req) "OPTIONS") as [Eo | No].
  - unfold predict_telemetry. rewrite Eo. simpl.
    intros H; inversion H; subst. left. auto.
  - assert (Hdec : unloaded g \/ exists m, model g = Some m /\ artifacts g <> PyNone).
    { unfold unloaded. destruct (model g) as [m |]; [| left; left; reflexivity].
      destruct (artifacts g); try (right; exists m; split; [reflexivity | discriminate]).
      left; right; reflexivity. }
    destruct Hdec as [Hu | (m & Hg & Hne)].
    + rewrite (model_not_loaded_run g req No Hu). simpl.
      intros H; inversion H; subst. right. left.
      split; [exact No |]. split; [exact Hu |]. split; [reflexivity |].
      split; [| reflexivity]. intros [E | []]. discriminate.
    + assert (Hl : loaded g) by (split; [rewrite Hg; discriminate | exact Hne]).
      rewrite (handler_loaded g m req No Hg Hne).
      pose proof (validate_input_events (artifacts g) req) as Hev.
      destruct (validate_input (artifacts g) req) as [[x | r0 | e] ev] eqn:E; simpl in *.
      * intros H. destruct (validate_input_accepts _ _ _ _ E) as [_ Hrd]. subst ev.
        destruct (inference_response g m x r H) as [(d & pv & H1 & H2 & H3) | H1].
        -- right; right; right; left. rewrite H3.
           split; [exact No |]. split; [exact Hl |]. exists d, pv. auto.
        -- right; right; right; right. auto.
      * intros H; inversion H; subst.
        destruct (validate_input_rejects _ _ _ _ E) as [H1 H2].
        right; right; left. auto 10.
      * discriminate.
Qed.

(** X17.  Among the responses of the handler, the status 204 belongs to
    the method OPTIONS and to no other: whatever the globals, a request is
    answered 204 exactly when its method is OPTIONS. *)
Theorem status_204_exactly_for_options
        (g : globals DataFrame) (req : request) (r : response) :
  result (handler g req) = Ok r ->
  (status r = 204 <-> method req = "OPTIONS").
Proof.
  intros H.
  destruct (handler_response g req r H)
    as [(Hm & Hr & _) | [(Hm & _ & Hr & _) | [(Hm & _ & Hs & _) |
        [(Hm & _ & d & pv & Hr & _) | (Hm & _ & Hr)]]]]; subst; simpl;
    split; intros H'; try reflexivity; try assumption; try contradiction;
    try discriminate.
  rewrite Hs in H'. discriminate.
Qed.

(** X18.  The answer 500 "Model not loaded" is given to a request whose
    method is not OPTIONS exactly when the model or the artifacts are
    [None]: no failure of the validation or of the prediction is reported
    under that text. *)
Theorem model_not_loaded_exactly_when_unloaded
        (g : globals DataFrame) (req : request) :
  method req <> "OPTIONS" ->
  (result (handler g req) =
     Ok {| content := Text "Internal Server Error: Model not loaded";
           status := 500; response_headers := cors_headers |}
   <-> (model g = None \/ artifacts g = PyNone)).
Proof.
  intros Hm. split.
  - intros H.
    destruct (handler_response g req _ H)
      as [(Ho & _) | [(_ & Hu & _) | [(_ & _ & Hs & _) |
          [(_ & _ & d & pv & Hr & _) | (_ & _ & Hr)]]]].
    + contradiction.
    + exact Hu.
    + simpl in Hs. discriminate.
    + discriminate.
    + discriminate.
  - intros Hu. rewrite (model_not_loaded_run g req Hm Hu). reflexivity.
Qed.

(** X19.  A request that is answered 400 has cost no prediction and has
    changed nothing: the context was loaded, [model.predict] was not
    called, the globals are as before, and the body is a text. *)
Theorem rejected_request_does_not_reach_the_model
        (g : globals DataFrame) (req : request) (r : response) :
  result (handler g req) = Ok r ->
  status r = 400 ->
  loaded g /\
  ~ In Predict (trace (handler g req)) /\
  after (handler g req) = g /\
  is_text (content r) = true.
Proof.
  intros H Hs.
  destruct (handler_response g req r H)
    as [(_ & Hr & _) | [(_ & _ & Hr & _) | [(_ & Hl & _ & Ht & Hp & Ha) |
        [(_ & _ & d & pv & Hr & _) | (_ & _ & Hr)]]]];
    try (subst r; simpl in Hs; discriminate).
  auto.
Qed.

(** X20.  The body of a response is the prediction mapping exactly when
    the status is 200; every other response carries a text.  A response
    200 comes after one read of the payload and one call of
    [model.predict]. *)
Theorem mapping_exactly_with_200
        (g : globals DataFrame) (req : request) (r : response) :
  result (handler g req) = Ok r ->
  (status r = 200 <-> is_text (content r) = false) /\
  (status r = 200 ->
   trace (handler g req) = (snd (read_data req) ++ [Predict])%list).
Proof.
  intros H.
  destruct (handler_response g req r H)
    as [(_ & Hr & _) | [(_ & _ & Hr & _) | [(_ & _ & Hs & Ht & _) |
        [(_ & _ & d & pv & Hr & _ & Htr) | (_ & _ & Hr)]]]];
    try (subst r; simpl; split; [split |]; intros H'; try discriminate; try reflexivity;
         try exact Htr).
  rewrite Hs, Ht. split; [split |]; intros H'; discriminate.
Qed.

(** X16.  The mapping of a response has distinct keys, each of them one
    of the output features of the descriptor, and no more entries than
    there are output features, whatever the model returned: a name that
    the descriptor repeats appears once. *)
Theorem prediction_keys_are_distinct_output_names
        (g : globals DataFrame) (req : request) (r : response) (d : dict) :
  result (handler g req) = Ok r ->
  content r = Mapping d ->
  NoDup (keys d) /\
  exists outs names,
    getitem_str (artifacts g) "output_features" = Ok outs /\
    py_iter outs = Ok names /\
    (List.length d <= List.length names)%nat /\
    forall k, In k (keys d) -> In (PyStr k) names.
Proof.
  intros H Hc.
  destruct (handler_response g req r H)
    as [(_ & Hr & _) | [(_ & _ & Hr & _) | [(_ & _ & _ & Ht & _) |
        [(_ & _ & d' & pv & Hr & Hf & _) | (_ & _ & Hr)]]]];
    try (subst r; simpl in Hc; discriminate).
  - rewrite Hc in Ht. discriminate.
  - subst r. simpl in Hc. inversion Hc; subst d'.
    exact (format_prediction_keys _ _ _ Hf).
Qed.

(** X21.  No request changes the descriptor or unloads the context:
    after any call [artifacts] is what it was, the context is loaded
    exactly when it was before, and a request to an unloaded context
    leaves the globals untouched. *)
Theorem requests_keep_the_context (g : globals DataFrame) (req : request) :
  artifacts (after (handler g req)) = artifacts g /\
  (loaded (after (handler g req)) <-> loaded g) /\
  (unloaded g -> after (handler g req) = g).
Proof.
  assert (Hsame : after (handler g req) = g \/
                  exists m x, model g = Some m /\
                              after (handler g req) = after (inference g m x)).
  { unfold predict_telemetry.
    destruct (String.eqb (method req) "OPTIONS"); [left; reflexivity |].
    destruct (model g) as [m |] eqn:Hg; [| left; reflexivity].
    destruct (is_None (artifacts g)); [left; reflexivity |].
    destruct (validate_input (artifacts g) req) as [[x | r | e] ev]; simpl;
      [right; exists m, x; auto | left; reflexivity | left; reflexivity]. }
  destruct Hsame as [E | (m & x & Hg & E)].
  - rewrite E. split; [reflexivity |]. split; [tauto | reflexivity].
  - rewrite E. destruct (inference_context g m x) as [Ha Hm].
    split; [exact Ha |]. split.
    + unfold loaded. rewrite Ha. split.
      * intros [_ H2]. split; [rewrite Hg; discriminate | exact H2].
      * intros [H1 H2]. split; [exact (Hm H1) | exact H2].
    + intros [Hu | Hu].
      * rewrite Hg in Hu. discriminate.
      * rewrite <- E. unfold predict_telemetry.
        destruct (String.eqb (method req) "OPTIONS"); [reflexivity |].
        rewrite Hg, Hu. reflexivity.
Qed.

(** ** The values of the prediction mapping *)

Lemma format_prediction_items (a pv row : pyval) (values : list pyval)
      (outs : list string) :
  getitem_str a "output_features" = Ok (PyList (map PyStr outs)) ->
  NoDup outs ->
  getitem_int pv 0 = Ok row ->
  py_iter row = Ok values ->
  format_prediction a pv = round_items (combine outs values).
Proof.
  intros Ho Hnd Hr Hv. unfold format_prediction.
  rewrite Ho. simpl. rewrite Hr. simpl. rewrite Hv. simpl.
  rewrite dict_of_pairs_names; [| exact Hnd | intros k _ []].
  simpl. apply round_loop_items. apply keys_combine_NoDup. exact Hnd.
Qed.

Lemma inference_items (g : globals DataFrame) (m : Regressor DataFrame) (x : Float64.t)
      (s' : St m) (values : list pyval) (outs : list string) :
  predicts DataFrame pd_DataFrame g m x s' values ->
  getitem_str (artifacts g) "output_features" = Ok (PyList (map PyStr outs)) ->
  NoDup outs ->
  inference g m x =
    let g' := {| model := Some {| St := St m; st := s'; predict := predict m |};
                 artifacts := artifacts g |} in
    match round_items (combine outs values) with
    | Ok d => {| result := Ok (respond (Mapping d) 200); trace := [Predict]; after := g' |}
    | Raise e => {| result := fst (except_predict e);
                    trace := Predict :: snd (except_predict e); after := g' |}
    end.
Proof.
  intros (columns & df & pv & row & Hc & Hdf & Hp & Hr & Hv) Ho Hnd.
  unfold predict_and_format, call_predict.
  rewrite Hc. simpl. rewrite Hdf, Hp. simpl.
  rewrite (format_prediction_items _ _ _ _ _ Ho Hnd Hr Hv).
  destruct (round_items (combine outs values)) as [d | e]; [reflexivity |].
  destruct (except_predict e); reflexivity.
Qed.

Lemma keys_combine_firstn (outs : list string) :
  forall values : list pyval,
    keys (combine outs values) = firstn (List.length values) outs.
Proof.
  induction outs as [| k outs IH]; intros values.
  - simpl. rewrite firstn_nil. reflexivity.
  - destruct values as [| v values]; simpl; [reflexivity |].
    f_equal. apply IH.
Qed.

Lemma lookup_absent (d : dict) (k : string) :
  ~ In k (keys d) -> lookup k d = None.
Proof.
  induction d as [| [k' v] d IH]; simpl; intros Hk; [reflexivity |].
  destruct (String.eqb_spec k' k) as [E | _]; [exfalso; apply Hk; left; exact E |].
  apply IH. tauto.
Qed.

Lemma NoDup_firstn_skipn (l : list string) (n : nat) (k : string) :
  NoDup l -> In k (skipn n l) -> ~ In k (firstn n l).
Proof.
  revert n. induction l as [| a l IH]; intros n Hnd.
  - rewrite skipn_nil. intros [].
  - destruct n as [| n]; simpl; [tauto |].
    inversion Hnd as [| ? ? Ha Hnd']; subst.
    intros Hs [E | Hf].
    + subst a. apply Ha. rewrite <- (firstn_skipn n l).
      apply in_or_app. right. exact Hs.
    + exact (IH n Hnd' Hs Hf).
Qed.

(** X13.  [zip] stops at the shorter of the names and the row.  With
    distinct output names, a row that [round] accepts gives a response
    200 whose keys are the first output names, as many as the row has
    values: an output feature beyond the end of a short row is absent from
    the response, and nothing reports it. *)
Theorem short_row_gives_fewer_keys
        (g : globals DataFrame) (m : Regressor DataFrame) (req : request)
        (x : Float64.t) (s' : St m) (values : list pyval) (outs : list string) :
  method req <> "OPTIONS" ->
  model g = Some m ->
  accepts (artifacts g) req x ->
  getitem_str (artifacts g) "output_features" = Ok (PyList (map PyStr outs)) ->
  NoDup outs ->
  predicts DataFrame pd_DataFrame g m x s' values ->
  Forall (fun kv => exists r, round_feature (fst kv) (snd kv) = Ok r)
         (combine outs values) ->
  exists d : dict,
    result (handler g req) =
      Ok {| content := Mapping d; status := 200; response_headers := cors_headers |} /\
    keys d = firstn (List.length values) outs /\
    forall k, In k (skipn (List.length values) outs) -> lookup k d = None.
Proof.
  intros Hm Hg Hacc Ho Hnd Hp Hr.
  destruct (round_items_total _ Hr) as [d Hd]. exists d.
  rewrite (accepted_continues g m req x Hm Hg Hacc). simpl.
  rewrite (inference_items g m x s' values outs Hp Ho Hnd). simpl. rewrite Hd. simpl.
  assert (Hk : keys d = firstn (List.length values) outs).
  { rewrite (round_items_keys _ _ Hd). apply keys_combine_firstn. }
  split; [reflexivity |]. split; [exact Hk |].
  intros k Hin. apply lookup_absent. rewrite Hk.
  apply NoDup_firstn_skipn; assumption.
Qed.

Lemma round_feature_refuses (key : string) (v : pyval) :
  is_number v = false -> round_feature key v = Raise TypeError.
Proof.
  intros H. rewrite round_feature_table. destruct v; simpl in *; try reflexivity;
    discriminate.
Qed.

Lemma round_items_refuses (items : dict) (k : string) (v : pyval) :
  In (k, v) items ->
  is_number v = false ->
  exists e, round_items items = Raise e /\ is_Exception e = true.
Proof.
  induction items as [| [k0 v0] items IH]; simpl; intros Hin Hv; [contradiction |].
  destruct (round_feature k0 v0) as [r | e] eqn:E; simpl.
  - destruct Hin as [Heq | Hin].
    + inversion Heq; subst. rewrite (round_feature_refuses k v Hv) in E. discriminate.
    + destruct (IH Hin Hv) as (e & He & Hex). rewrite He. simpl. eauto.
  - exists e. split; [reflexivity |]. eapply round_feature_raises; eauto.
Qed.

(** X14.  With distinct output names, a row in which a value paired
    with an output name is no number ([None], a text, a list, a mapping)
    is answered 500 "Prediction failed.": the values rounded before it are
    lost with the mapping, the error is printed, and the model keeps the
    state the call left. *)
Theorem value_that_is_no_number_is_answered_500
        (g : globals DataFrame) (m : Regressor DataFrame) (req : request)
        (x : Float64.t) (s' : St m) (values : list pyval) (outs : list string)
        (k : string) (v : pyval) :
  method req <> "OPTIONS" ->
  model g = Some m ->
  accepts (artifacts g) req x ->
  getitem_str (artifacts g) "output_features" = Ok (PyList (map PyStr outs)) ->
  NoDup outs ->
  predicts DataFrame pd_DataFrame g m x s' values ->
  In (k, v) (combine outs values) ->
  is_number v = false ->
  handler g req =
    {| result := Ok {| content := Text "Internal Server Error: Prediction failed.";
                       status := 500;
                       response_headers := cors_headers |};
       trace := (snd (read_data req) ++
                 [Predict; PrintError "Error during prediction: "])%list;
       after := {| model := Some {| St := St m; st := s'; predict := predict m |};
                   artifacts := artifacts g |} |}.
Proof.
  intros Hm Hg Hacc Ho Hnd Hp Hin Hv.
  destruct (round_items_refuses _ k v Hin Hv) as (e & He & Hex).
  rewrite (accepted_continues g m req x Hm Hg Hacc).
  rewrite (inference_items g m x s' values outs Hp Ho Hnd). simpl. rewrite He.
  rewrite (except_predict_caught e Hex). reflexivity.
Qed.

Lemma round_feature_kept (key : string) (v : pyval) :
  kept_by_round v = true -> round_feature key v = Ok v.
Proof.
  intros H. unfold round_feature.
  destruct (Text.contains "vibration" key);
    [| destruct (Text.contains "pressure" key || Text.contains "flow" key)];
    destruct v as [| b | n | [s | s | | s m0 e] | s | l | d | [s | s | | s m0 e]];
    simpl in *; try discriminate; try reflexivity;
    destruct s; vm_compute; reflexivity.
Qed.

Lemma round_items_kept (outs : list string) :
  forall values : list pyval,
    Forall (fun v => kept_by_round v = true) values ->
    round_items (combine outs values) = Ok (combine outs values).
Proof.
  induction outs as [| k outs IH]; intros values Hv; [reflexivity |].
  destruct values as [| v values]; [reflexivity |].
  inversion Hv; subst. simpl.
  rewrite round_feature_kept by assumption. simpl.
  rewrite IH by assumption. reflexivity.
Qed.

(** X15.  The loop rounds finite floats only.  With distinct output
    names, a row of values that are NaN, an infinity or an [int] is
    answered 200 with these values as the model gave them, each under its
    output name: a prediction that is not finite is served as a result. *)
Theorem non_finite_predictions_are_served
        (g : globals DataFrame) (m : Regressor DataFrame) (req : request)
        (x : Float64.t) (s' : St m) (values : list pyval) (outs : list string) :
  method req <> "OPTIONS" ->
  model g = Some m ->
  accepts (artifacts g) req x ->
  getitem_str (artifacts g) "output_features" = Ok (PyList (map PyStr outs)) ->
  NoDup outs ->
  predicts DataFrame pd_DataFrame g m x s' values ->
  Forall (fun v => kept_by_round v = true) values ->
  result (handler g req) =
    Ok {| content := Mapping (combine outs values);
          status := 200;
          response_headers := cors_headers |}.
Proof.
  intros Hm Hg Hacc Ho Hnd Hp Hv.
  rewrite (accepted_continues g m req x Hm Hg Hacc). simpl.
  rewrite (inference_items g m x s' values outs Hp Ho Hnd). simpl.
  rewrite (round_items_kept outs values Hv). reflexivity.
Qed.

(** ** The descriptor and the exceptions of the validation *)

Lemma data_get_raises (d : request_data) (key : pyval) (e : exn) :
  data_get d key = Raise e -> is_Exception e = true.
Proof.
  destruct d as [j | a]; simpl.
  - destruct j; try raised. destruct (hashable key); raised.
  - destruct (hashable key); raised.
Qed.

Lemma py_float_raises (v : pyval) (e : exn) :
  py_float v = Raise e -> is_Exception e = true.
Proof.
  assert (Hint : forall n, float_of_int n = Raise e -> is_Exception e = true).
  { intros n. unfold float_of_int. destruct (Float64.is_finite (Float64.of_Z n)); raised. }
  destruct v; simpl; try raised; try apply Hint.
  destruct (float_of_string s); raised.
Qed.

Lemma except_input_bound (name : pyval) (e : exn) :
  is_Exception e = true ->
  exists r ev, except_input (Some name) e = (Return r, ev).
Proof.
  intros He. unfold except_input. rewrite He.
  destruct (is_ValueError_or_TypeError e); eauto.
Qed.

Lemma validate_input_answers (a : pyval) (req : request) (l : list pyval) :
  getitem_str a "input_features" = Ok (PyList l) ->
  (exists r ev, validate_input a req = (Return r, ev)) \/
  (exists x ev, validate_input a req = (Continue x, ev)).
Proof.
  intros Hf. unfold validate_input.
  destruct (read_data req) as [data ev0].
  destruct (data_is_None data); [left; eauto |].
  rewrite Hf. simpl.
  destruct (index l 0) as [name | e] eqn:En.
  - destruct (data_get data name) as [raw | e] eqn:Ed.
    + destruct (is_None raw); [left; eauto |].
      destruct (py_float raw) as [x | e] eqn:Ex; [right; eauto |].
      destruct (except_input_bound name e (py_float_raises _ _ Ex)) as (r & ev & E).
      rewrite E. left; eauto.
    + destruct (except_input_bound name e (data_get_raises _ _ _ Ed)) as (r & ev & E).
      rewrite E. left; eauto.
  - assert (He : e = IndexError).
    { unfold index in En. simpl in En. destruct l; inversion En; reflexivity. }
    subst e. left. simpl. eauto.
Qed.

Lemma inference_answers (g : globals DataFrame) (m : Regressor DataFrame) (x : Float64.t) :
  (forall columns e, pd_DataFrame [[x]] columns = Raise e -> is_Exception e = true) ->
  (forall df e s', predict m (st m) df = (Raise e, s') -> is_Exception e = true) ->
  exists r, result (inference g m x) = Ok r.
Proof.
  intros Hframe Hpred. unfold predict_and_format.
  destruct (getitem_str (artifacts g) "input_features") as [columns | e] eqn:Ec; simpl.
  - destruct (pd_DataFrame [[x]] columns) as [df | e] eqn:Edf.
    + unfold call_predict.
      destruct (predict m (st m) df) as [[pv | e] s'] eqn:Ep; simpl.
      * destruct (format_prediction (artifacts g) pv) as [d | e] eqn:Ef.
        -- eexists; reflexivity.
        -- rewrite (except_predict_caught e (format_prediction_raises _ _ _ Ef)).
           eexists; reflexivity.
      * rewrite (except_predict_caught e (Hpred _ _ _ Ep)). eexists; reflexivity.
    + rewrite (except_predict_caught e (Hframe _ _ Edf)). eexists; reflexivity.
  - rewrite (except_predict_caught e (getitem_str_raises _ _ _ Ec)). eexists; reflexivity.
Qed.

(** X22.  With a descriptor that is a JSON object whose [input_features]
    is a list (even an empty one), and a [pd.DataFrame] and a [predict]
    that raise nothing outside [Exception], the handler answers every
    request: whatever the method, the body and the query, and whether or
    not the model is loaded, it returns a response and raises nothing. *)
Theorem every_request_is_answered
        (g : globals DataFrame) (req : request) (l : list pyval) :
  getitem_str (artifacts g) "input_features" = Ok (PyList l) ->
  (forall data columns e, pd_DataFrame data columns = Raise e -> is_Exception e = true) ->
  (forall m s df e s',
     model g = Some m -> predict m s df = (Raise e, s') -> is_Exception e = true) ->
  exists r, result (handler g req) = Ok r.
Proof.
  intros Hf Hframe Hpred.
  destruct (String.eqb_spec (method req) "OPTIONS") as [Eo | No].
  - unfold predict_telemetry. rewrite Eo. simpl. eexists; reflexivity.
  - destruct (model g) as [m |] eqn:Hg.
    + assert (Ha : artifacts g <> PyNone).
      { intros E. rewrite E in Hf. discriminate. }
      rewrite (handler_loaded g m req No Hg Ha).
      destruct (validate_input_answers (artifacts g) req l Hf)
        as [(r & ev & E) | (x & ev & E)]; rewrite E; simpl.
      * eexists; reflexivity.
      * apply inference_answers.
        -- intros columns e. apply Hframe.
        -- intros df e s'. apply (Hpred m (st m) df e s'). reflexivity.
    + rewrite (model_not_loaded_run g req No (or_introl Hg)). simpl.
      eexists; reflexivity.
Qed.

(** X6.  The keys of a JSON object and of the query are texts.  When
    the first input feature of the descriptor is not a text (a number, a
    boolean, [null], a list, an object), no payload that is a mapping
    binds it: every such request is answered 400 without a call of
    [model.predict]. *)
Theorem input_feature_that_is_no_text
        (g : globals DataFrame) (m : Regressor DataFrame) (req : request)
        (features name : pyval) :
  method req <> "OPTIONS" ->
  model g = Some m ->
  getitem_str (artifacts g) "input_features" = Ok features ->
  getitem_int features 0 = Ok name ->
  (forall s, name <> PyStr s) ->
  is_mapping (payload req) = true ->
  exists r,
    handler g req = {| result := Ok r; trace := snd (read_data req); after := g |} /\
    status r = 400.
Proof.
  intros Hm Hg Hf Hn Hs Hmap.
  assert (Ha : artifacts g <> PyNone).
  { intros E. rewrite E in Hf. discriminate. }
  rewrite (handler_loaded g m req Hm Hg Ha).
  unfold validate_input, payload in *. destruct (read_data req) as [data ev]. simpl in *.
  assert (Hd : data_is_None data = false).
  { destruct data as [[] |]; simpl in *; try discriminate; reflexivity. }
  rewrite Hd, Hf. simpl. rewrite Hn.
  assert (Hget : data_get data name =
                 if hashable name then Ok PyNone else Raise TypeError).
  { destruct data as [j | a]; simpl in *.
    - destruct j; try discriminate.
      destruct name; try reflexivity. exfalso. apply (Hs s). reflexivity.
    - destruct name; try reflexivity. exfalso. apply (Hs s). reflexivity. }
  rewrite Hget. destruct (hashable name); simpl.
  - eexists. split; reflexivity.
  - rewrite app_nil_r. eexists. split; reflexivity.
Qed.

(** ** Loading *)

Lemma except_load_result (e : exn) (g : globals DataFrame) :
  fst (fst (except_load DataFrame e g)) = (if is_Exception e then Ok false else Raise e) /\
  snd (except_load DataFrame e g) = g.
Proof.
  unfold except_load. destruct e; simpl; split; reflexivity.
Qed.

(** X23.  [load_model] does not look at what it loaded.  When the model
    file holds [None] or the artifacts file holds the JSON [null],
    [load_model] prints the success and returns [True], and yet the
    context is not loaded: every request whose method is not OPTIONS is
    answered 500 "Model not loaded". *)
Theorem load_reports_success_without_a_context
        (env : environment DataFrame) (m : option (Regressor DataFrame))
        (f : string) (a : pyval) :
  joblib_load DataFrame env MODEL_FILE = Ok m ->
  open_r DataFrame env ARTIFACTS_FILE = Ok f ->
  json_load DataFrame env f = Ok a ->
  m = None \/ a = PyNone ->
  cold_start DataFrame env =
    (Ok true, [Print "Model and artifacts loaded successfully."],
     {| model := m; artifacts := a |}) /\
  forall req : request,
    method req <> "OPTIONS" ->
    result (handler {| model := m; artifacts := a |} req) =
      Ok {| content := Text "Internal Server Error: Model not loaded";
            status := 500;
            response_headers := cors_headers |}.
Proof.
  intros Hj Ho Hl Hu. split.
  - unfold cold_start, load_model. rewrite Hj, Ho. simpl. rewrite Hl. reflexivity.
  - intros req Hm. rewrite (model_not_loaded_run _ req Hm); [reflexivity |].
    exact Hu.
Qed.

(** X24.  Whatever the globals were, [load_model] returns [True]
    exactly when the three steps succeed, and the globals are then what
    was loaded; when a step raises [e], it returns [False] if [e] is an
    [Exception], and lets [e] through otherwise. *)
Theorem load_succeeds_exactly_when_all_steps_do
        (env : environment DataFrame) (g : globals DataFrame) :
  (fst (fst (load_model DataFrame env g)) = Ok true <->
   exists m f a,
     joblib_load DataFrame env MODEL_FILE = Ok m /\
     open_r DataFrame env ARTIFACTS_FILE = Ok f /\
     json_load DataFrame env f = Ok a) /\
  (forall m f a,
     joblib_load DataFrame env MODEL_FILE = Ok m ->
     open_r DataFrame env ARTIFACTS_FILE = Ok f ->
     json_load DataFrame env f = Ok a ->
     snd (load_model DataFrame env g) = {| model := m; artifacts := a |}) /\
  (forall e,
     load_failure DataFrame env e ->
     fst (fst (load_model DataFrame env g)) =
       if is_Exception e then Ok false else Raise e).
Proof.
  assert (Hno : forall e g0, fst (fst (except_load DataFrame e g0)) <> Ok true).
  { intros e g0. rewrite (proj1 (except_load_result e g0)).
    destruct (is_Exception e); discriminate. }
  split; [split |]; [| | split].
  - unfold load_model.
    destruct (joblib_load DataFrame env MODEL_FILE) as [m | e]; [| intros H; destruct (Hno _ _ H)].
    destruct (open_r DataFrame env ARTIFACTS_FILE) as [f | e]; simpl;
      [| intros H; destruct (Hno _ _ H)].
    destruct (json_load DataFrame env f) as [a | e] eqn:El; [| intros H; destruct (Hno _ _ H)].
    intros _. exists m, f, a. auto.
  - intros (m & f & a & Hj & Ho & Hl). unfold load_model.
    rewrite Hj, Ho. simpl. rewrite Hl. reflexivity.
  - intros m f a Hj Ho Hl. unfold load_model.
    rewrite Hj, Ho. simpl. rewrite Hl. reflexivity.
  - intros e Hf. unfold load_model.
    destruct Hf as [Hj | (m & Hj & [Ho | (f & Ho & Hl)])]; rewrite Hj.
    + apply except_load_result.
    + rewrite Ho. simpl. apply except_load_result.
    + rewrite Ho. simpl. rewrite Hl. apply except_load_result.
Qed.

(** X25.  [load_model] assigns [model] before it opens the artifacts
    file.  Called on any globals, a load that fails at the model file
    leaves them as they were; a load that fails at the artifacts file
    leaves the new model beside the old [artifacts]: the two globals
    then come from different loads. *)
Theorem failed_load_keeps_the_artifacts
        (env : environment DataFrame) (g : globals DataFrame) (e : exn) :
  load_failure DataFrame env e ->
  artifacts (snd (load_model DataFrame env g)) = artifacts g /\
  (joblib_load DataFrame env MODEL_FILE = Raise e -> snd (load_model DataFrame env g) = g) /\
  (forall m, joblib_load DataFrame env MODEL_FILE = Ok m ->
             model (snd (load_model DataFrame env g)) = m).
Proof.
  intros Hf.
  assert (Hlate : forall m, joblib_load DataFrame env MODEL_FILE = Ok m ->
            snd (load_model DataFrame env g) = {| model := m; artifacts := artifacts g |}).
  { intros m Hj. unfold load_model. rewrite Hj.
    destruct Hf as [Hj' | (m' & _ & [Ho | (f & Ho & Hl)])].
    - rewrite Hj in Hj'. discriminate.
    - rewrite Ho. simpl. apply except_load_result.
    - rewrite Ho. simpl. rewrite Hl. apply except_load_result. }
  assert (Hearly : forall e', joblib_load DataFrame env MODEL_FILE = Raise e' ->
            snd (load_model DataFrame env g) = g).
  { intros e' Hj. unfold load_model. rewrite Hj. apply except_load_result. }
  split; [| split].
  - destruct (joblib_load DataFrame env MODEL_FILE) as [m | e'] eqn:Hj.
    + rewrite (Hlate m eq_refl). reflexivity.
    + rewrite (Hearly e' eq_refl). reflexivity.
  - apply Hearly.
  - intros m Hj. rewrite (Hlate m Hj). reflexivity.
Qed.

(** X26.  A file that is missing is reported by its name: when
    [joblib.load] or [open] raises [FileNotFoundError] at the cold start,
    the one line printed is "ERROR: Missing file", the file name that the
    exception carries, and the advice to deploy both files; [load_model]
    returns [False]. *)
Theorem missing_file_is_reported_by_name
        (env : environment DataFrame) (filename : string) :
  load_failure DataFrame env (FileNotFoundError filename) ->
  fst (cold_start DataFrame env) =
    (Ok false,
     [Print ("ERROR: Missing file " ++ filename ++
             ". Make sure model.joblib and model_artifacts.json are deployed.")]).
Proof.
  intros Hf. unfold cold_start, load_model.
  destruct Hf as [Hj | (m & Hj & [Ho | (f & Ho & Hl)])]; rewrite Hj.
  - reflexivity.
  - rewrite Ho. reflexivity.
  - rewrite Ho. simpl. rewrite Hl. reflexivity.
Qed.

(** X27.  After a cold start that finds a model and a descriptor other
    than [null], the context is loaded, and it stays loaded under any
    sequence of requests: none of them is answered 500 "Model not
    loaded". *)
Theorem loaded_context_serves_every_request
        (env : environment DataFrame) (m : Regressor DataFrame)
        (f : string) (a : pyval) (reqs : list request) :
  joblib_load DataFrame env MODEL_FILE = Ok (Some m) ->
  open_r DataFrame env ARTIFACTS_FILE = Ok f ->
  json_load DataFrame env f = Ok a ->
  a <> PyNone ->
  loaded (snd (cold_start DataFrame env)) /\
  loaded (serve DataFrame pd_DataFrame (snd (cold_start DataFrame env)) reqs) /\
  forall req,
    method req <> "OPTIONS" ->
    result (handler (serve DataFrame pd_DataFrame (snd (cold_start DataFrame env)) reqs) req)
    <> Ok (respond (Text "Internal Server Error: Model not loaded") 500).
Proof.
  intros Hj Ho Hl Ha.
  assert (H0 : loaded (snd (cold_start DataFrame env))).
  { unfold cold_start, load_model. rewrite Hj, Ho. simpl. rewrite Hl. simpl.
    split; [discriminate | exact Ha]. }
  assert (Hserve : forall g, loaded g -> loaded (serve DataFrame pd_DataFrame g reqs)).
  { induction reqs as [| req reqs IH]; intros g Hg; simpl; [exact Hg |].
    apply IH.
    unfold predict_telemetry.
    destruct (String.eqb (method req) "OPTIONS"); [exact Hg |].
    destruct (model g) as [m0 |] eqn:Hm; [| exact Hg].
    destruct (is_None (artifacts g)); [exact Hg |].
    destruct (validate_input (artifacts g) req) as [[x | r | e] ev]; simpl;
      try exact Hg.
    destruct (inference_context g m0 x) as [E1 E2].
    destruct Hg as [G1 G2]. split; [exact (E2 G1) | rewrite E1; exact G2]. }
  split; [exact H0 |]. split; [exact (Hserve _ H0) |].
  intros req Hm H.
  pose proof (Hserve _ H0) as [L1 L2].
  unfold predict_telemetry in H.
  destruct (String.eqb_spec (method req) "OPTIONS") as [E | _]; [contradiction |].
  set (g := serve DataFrame pd_DataFrame (snd (cold_start DataFrame env)) reqs) in *.
  destruct (model g) as [m0 |] eqn:Hmg; [| apply L1; reflexivity].
  destruct (is_None (artifacts g)) eqn:Hn.
  - apply L2. destruct (artifacts g); try discriminate. reflexivity.
  - destruct (validate_input (artifacts g) req) as [[x | r | e] ev] eqn:E; simpl in H.
    + destruct (inference_response g m0 x _ H) as [(d & pv & H1 & _) | H1]; discriminate.
    + inversion H as [Hr]. destruct (validate_input_rejects _ _ _ _ E) as [Hs _].
      rewrite Hr in Hs. discriminate.
    + discriminate.
Qed.

End Properties.

(** * The properties on the deployment *)

Ltac evaluate := vm_compute; reflexivity.

Lemma example_outputs_distinct : NoDup example_outputs.
Proof.
  unfold example_outputs.
  repeat (constructor; [simpl; intuition discriminate |]). constructor.
Qed.

Lemma example_row_rounds :
  Forall (fun kv => exists r, round_feature (fst kv) (snd kv) = Ok r)
         (combine example_outputs example_row).
Proof.
  unfold example_outputs, example_row. simpl.
  repeat (constructor; [eexists; evaluate |]). constructor.
Qed.

Lemma example_model_predicts (x : Float64.t) :
  predicts Frame frame example_globals example_model x tt example_row.
Proof.
  exists (PyList [PyStr "raw_mill_load"]), ([[x]], PyList [PyStr "raw_mill_load"]),
         (PyList [PyList example_row]), (PyList example_row).
  repeat split.
Qed.

Lemma example_model_stateless (m : Regressor Frame) :
  model example_globals = Some m -> stateless m.
Proof.
  intros H. injection H as <-. intros s df. reflexivity.
Qed.

(** An OPTIONS request on the loaded deployment. *)
Lemma options_preflight_witness :
  method {| method := "OPTIONS"; get_json := PyNone; args := [] |} = "OPTIONS" /\
  predict_telemetry Frame frame example_globals
                    {| method := "OPTIONS"; get_json := PyNone; args := [] |} =
    {| result := Ok {| content := Text ""; status := 204;
                       response_headers :=
                         [ ("Access-Control-Allow-Origin", "*");
                           ("Access-Control-Allow-Methods", "POST, GET, OPTIONS");
                           ("Access-Control-Allow-Headers", "Content-Type") ] |};
       trace := [];
       after := example_globals |}.
Proof.
  split; [reflexivity |].
  apply (options_preflight Frame frame example_globals). reflexivity.
Defined.

(** A GET on the globals that lines 12 and 13 set. *)
Lemma model_not_loaded_witness :
  method (get [("raw_mill_load", "120.5")]) <> "OPTIONS" /\
  result (predict_telemetry Frame frame initial (get [("raw_mill_load", "120.5")])) =
    Ok {| content := Text "Internal Server Error: Model not loaded"; status := 500;
          response_headers := cors_headers |}.
Proof.
  split; [discriminate |].
  rewrite (model_not_loaded Frame frame initial (get [("raw_mill_load", "120.5")]));
    [reflexivity | discriminate | left; reflexivity].
Defined.

(** A POST without a JSON body on the loaded deployment. *)
Lemma cors_on_every_response_witness :
  result (predict_telemetry Frame frame example_globals (post PyNone)) =
    Ok (respond (Text "Bad Request: Missing or invalid JSON payload.") 400) /\
  response_headers (respond (Text "Bad Request: Missing or invalid JSON payload.") 400) =
    [ ("Access-Control-Allow-Origin", "*");
      ("Access-Control-Allow-Methods", "POST, GET, OPTIONS");
      ("Access-Control-Allow-Headers", "Content-Type") ].
Proof.
  split; [reflexivity |].
  apply (cors_on_every_response Frame frame example_globals (post PyNone)). reflexivity.
Defined.

(** A cold start without the artifacts file: the model is set, the
    artifacts are not. *)
Lemma load_failure_leaves_unloaded_witness :
  load_failure Frame example_environment (FileNotFoundError ARTIFACTS_FILE) /\
  exists (ev : list event) (g : globals Frame),
    cold_start Frame example_environment = (Ok false, ev, g) /\
    ev <> [] /\
    artifacts g = PyNone /\
    ~ loaded g /\
    forall req : request,
      method req <> "OPTIONS" ->
      result (predict_telemetry Frame frame g req) =
        Ok {| content := Text "Internal Server Error: Model not loaded";
              status := 500;
              response_headers := cors_headers |} /\
      ~ In Predict (trace (predict_telemetry Frame frame g req)) /\
      after (predict_telemetry Frame frame g req) = g.
Proof.
  assert (H : load_failure Frame example_environment (FileNotFoundError ARTIFACTS_FILE)).
  { right. exists (Some example_model). split; [reflexivity | left; reflexivity]. }
  split; [exact H |].
  exact (load_failure_leaves_unloaded Frame frame example_environment
                                      (FileNotFoundError ARTIFACTS_FILE) H eq_refl).
Defined.

(** The same POST twice on the loaded deployment. *)
Lemma handler_deterministic_and_stateless_witness :
  payload example_post = payload example_post /\
  after (predict_telemetry Frame frame example_globals example_post) = example_globals /\
  result (predict_telemetry Frame frame
            (after (predict_telemetry Frame frame example_globals example_post))
            example_post) =
  result (predict_telemetry Frame frame example_globals example_post).
Proof.
  destruct (handler_deterministic_and_stateless
              Frame frame example_globals example_post example_post
              example_model_stateless eq_refl eq_refl) as (H1 & H2 & _).
  split; [reflexivity |]. split; [exact H1 | exact H2].
Defined.


(** The POST of the text "120.5" on the loaded deployment: twelve
    outputs. *)
Lemma post_valid_number_returns_all_outputs_witness :
  float_of_string "120.5" = Some (Float64.of_decimal false 1205 (-1)) /\
  List.length example_outputs = 12%nat /\
  exists d : dict,
    result (predict_telemetry Frame frame example_globals example_post) =
      Ok {| content := Mapping d; status := 200; response_headers := cors_headers |} /\
    keys d = example_outputs /\
    round_items (combine example_outputs example_row) = Ok d /\
    trace (predict_telemetry Frame frame example_globals example_post) =
      [ReadJson; Predict].
Proof.
  assert (Hx : float_of_string "120.5" = Some (Float64.of_decimal false 1205 (-1)))
    by evaluate.
  split; [exact Hx |]. split; [reflexivity |].
  apply (post_valid_number_returns_all_outputs
           Frame frame example_globals example_model example_post
           "raw_mill_load" [] example_outputs
           [("raw_mill_load", PyStr "120.5")] "120.5"
           (Float64.of_decimal false 1205 (-1)) tt example_row).
  - reflexivity.
  - reflexivity.
  - reflexivity.
  - exact example_outputs_distinct.
  - reflexivity.
  - reflexivity.
  - reflexivity.
  - exact Hx.
  - apply example_model_predicts.
  - simpl. lia.
  - exact example_row_rounds.
Defined.

(** The query [raw_mill_load=nan] on the loaded deployment. *)
Lemma non_finite_and_boolean_inputs_reach_the_model_witness :
  py_float (PyStr "nan") = Ok Float64.nan /\
  Float64.is_finite Float64.nan = false /\
  exists d : dict,
    result (predict_telemetry Frame frame example_globals
                              (get [("raw_mill_load", "nan")])) =
      Ok {| content := Mapping d; status := 200; response_headers := cors_headers |} /\
    keys d = example_outputs /\
    In Predict (trace (predict_telemetry Frame frame example_globals
                                         (get [("raw_mill_load", "nan")]))).
Proof.
  split; [evaluate |]. split; [reflexivity |].
  destruct (non_finite_and_boolean_inputs_reach_the_model Frame frame)
    as (_ & _ & _ & _ & _ & H).
  destruct (H example_globals example_model
              (get [("raw_mill_load", "nan")])
              (PyList [PyStr "raw_mill_load"]) (PyStr "raw_mill_load")
              (PyStr "nan") Float64.nan)
    as (_ & _ & Hok); try reflexivity; try discriminate.
  apply (Hok tt example_row example_outputs).
  - reflexivity.
  - exact example_outputs_distinct.
  - apply example_model_predicts.
  - simpl. lia.
  - exact example_row_rounds.
Defined.


(** The query [raw_mill_load=120.5] and the JSON body
    [{"raw_mill_load": 120.5}] on the loaded deployment. *)
Lemma get_and_post_agree_witness :
  json_number "120.5" = Some (PyFloat (Float64.of_decimal false 1205 (-1))) /\
  converts_alike "120.5" (PyFloat (Float64.of_decimal false 1205 (-1))) /\
  result (predict_telemetry Frame frame example_globals example_get) =
  result (predict_telemetry Frame frame example_globals
            (post (PyDict [("raw_mill_load",
                            PyFloat (Float64.of_decimal false 1205 (-1)))]))).
Proof.
  assert (Hj : json_number "120.5" =
               Some (PyFloat (Float64.of_decimal false 1205 (-1)))) by evaluate.
  split; [exact Hj |]. split; [exact I |].
  apply (get_and_post_agree
           Frame frame example_globals "raw_mill_load" "120.5"
           (PyFloat (Float64.of_decimal false 1205 (-1)))
           example_get
           (post (PyDict [("raw_mill_load",
                           PyFloat (Float64.of_decimal false 1205 (-1)))]))
           eq_refl eq_refl eq_refl eq_refl Hj I).
Defined.

(** ** Where the specification and the code part *)


(** C8 as stated fails on the number [10^309]: the query text goes
    through [float] as the infinity and is predicted on, the [int] of the
    JSON body is beyond the range of a float and is answered 400. *)
Lemma huge_integer_get_and_post_differ :
  json_number (power_of_ten_literal 309) = Some (PyInt (10 ^ 309)) /\
  py_float (PyStr (power_of_ten_literal 309)) = Ok (Float64.inf false) /\
  py_float (PyInt (10 ^ 309)) = Raise OverflowError /\
  status_of (result (predict_telemetry Frame frame example_globals
               (get [("raw_mill_load", power_of_ten_literal 309)]))) = Some 200 /\
  result (predict_telemetry Frame frame example_globals
            (post (PyDict [("raw_mill_load", PyInt (10 ^ 309))]))) =
    Ok {| content := Text "Bad Request: Could not parse input.";
          status := 400;
          response_headers := cors_headers |} /\
  result (predict_telemetry Frame frame example_globals
            (get [("raw_mill_load", power_of_ten_literal 309)])) <>
  result (predict_telemetry Frame frame example_globals
            (post (PyDict [("raw_mill_load", PyInt (10 ^ 309))]))).
Proof.
  split; [evaluate |]. split; [evaluate |]. split; [evaluate |].
  split; [evaluate |]. split; [evaluate |].
  vm_compute. discriminate.
Qed.

(** * Further properties on the deployment *)

Ltac settle := first [reflexivity | discriminate | evaluate].

Lemma example_post_accepted :
  accepts example_artifacts example_post example_input.
Proof.
  exists (PyList [PyStr "raw_mill_load"]), (PyStr "raw_mill_load"), (PyStr "120.5").
  repeat split; evaluate.
Qed.

Lemma counting_model_predicts (row : list pyval) (x : Float64.t) :
  predicts Frame frame (with_model (counting_model (Ok (PyList [PyList row]))))
           (counting_model (Ok (PyList [PyList row]))) x 1%nat row.
Proof.
  exists (PyList [PyStr "raw_mill_load"]), ([[x]], PyList [PyStr "raw_mill_load"]),
         (PyList [PyList row]), (PyList row).
  repeat split.
Qed.

(** A POST without a body on the loaded deployment. *)
Lemma post_without_json_is_rejected_witness :
  predict_telemetry Frame frame example_globals (post PyNone) =
    {| result := Ok {| content := Text "Bad Request: Missing or invalid JSON payload.";
                       status := 400;
                       response_headers := cors_headers |};
       trace := [ReadJson];
       after := example_globals |}.
Proof.
  apply (post_without_json_is_rejected Frame frame example_globals example_model
                                       (post PyNone)); settle.
Defined.

(** A query that names another parameter. *)
Lemma missing_field_is_named_witness :
  predict_telemetry Frame frame example_globals (get [("mill_load", "120.5")]) =
    {| result := Ok {| content := Text "Bad Request: Missing 'raw_mill_load' parameter.";
                       status := 400;
                       response_headers := cors_headers |};
       trace := [ReadArgs];
       after := example_globals |}.
Proof.
  apply (missing_field_is_named Frame frame example_globals example_model
                                (get [("mill_load", "120.5")]) "raw_mill_load" []);
    settle.
Defined.

(** A POST whose JSON body is a list. *)
Lemma json_that_is_no_object_is_rejected_witness :
  predict_telemetry Frame frame example_globals (post (PyList [PyFloat example_input])) =
    {| result := Ok {| content := Text "Bad Request: Could not parse input.";
                       status := 400;
                       response_headers := cors_headers |};
       trace := [ReadJson; PrintError "Error parsing input: "];
       after := example_globals |}.
Proof.
  apply (json_that_is_no_object_is_rejected
           Frame frame example_globals example_model
           (post (PyList [PyFloat example_input]))
           (PyList [PyStr "raw_mill_load"]) (PyStr "raw_mill_load")); settle.
Defined.

(** A descriptor that lists the output features only. *)
Lemma descriptor_without_input_feature_witness :
  predict_telemetry Frame frame
                    (with_artifacts (PyDict [("output_features", PyList [])]))
                    example_get =
    {| result := Ok {| content := Text "Bad Request: Could not parse input.";
                       status := 400;
                       response_headers := cors_headers |};
       trace := [ReadArgs; PrintError "Error parsing input: "];
       after := with_artifacts (PyDict [("output_features", PyList [])]) |}.
Proof.
  apply (descriptor_without_input_feature
           Frame frame (with_artifacts (PyDict [("output_features", PyList [])]))
           example_model example_get [("output_features", PyList [])]);
    try settle.
  left. reflexivity.
Defined.

(** A descriptor that is the list of the input features, not an object. *)
Lemma descriptor_that_is_no_mapping_witness :
  predict_telemetry Frame frame
                    (with_artifacts (PyList [PyStr "raw_mill_load"])) example_post =
    {| result := Raise UnboundLocalError;
       trace := [ReadJson];
       after := with_artifacts (PyList [PyStr "raw_mill_load"]) |}.
Proof.
  apply (descriptor_that_is_no_mapping
           Frame frame (with_artifacts (PyList [PyStr "raw_mill_load"]))
           example_model example_post); settle.
Defined.

(** A DELETE with a JSON body and a query. *)
Lemma other_methods_are_served_as_get_witness :
  predict_telemetry Frame frame example_globals
                    {| method := "DELETE";
                       get_json := PyDict [("raw_mill_load", PyStr "1")];
                       args := [("raw_mill_load", "120.5")] |} =
  predict_telemetry Frame frame example_globals example_get.
Proof.
  apply (other_methods_are_served_as_get
           Frame frame example_globals
           {| method := "DELETE";
              get_json := PyDict [("raw_mill_load", PyStr "1")];
              args := [("raw_mill_load", "120.5")] |}); settle.
Defined.

(** A query with another parameter and a second value of the input
    feature. *)
Lemma only_the_input_feature_is_read_witness :
  predict_telemetry Frame frame example_globals example_get =
  predict_telemetry Frame frame example_globals
                    (get [("unit", "t"); ("raw_mill_load", "120.5");
                          ("raw_mill_load", "7")]).
Proof.
  apply (only_the_input_feature_is_read
           Frame frame example_globals example_get
           (get [("unit", "t"); ("raw_mill_load", "120.5"); ("raw_mill_load", "7")])
           "raw_mill_load" []); settle.
Defined.

(** A model whose [predict] raises [ValueError]. *)
Lemma failed_prediction_is_answered_500_witness :
  predict_telemetry Frame frame (with_model (counting_model (Raise ValueError)))
                    example_post =
    {| result := Ok {| content := Text "Internal Server Error: Prediction failed.";
                       status := 500;
                       response_headers := cors_headers |};
       trace := [ReadJson; Predict; PrintError "Error during prediction: "];
       after := {| model := Some {| St := nat; st := 1%nat;
                                    predict := predict (counting_model (Raise ValueError)) |};
                   artifacts := example_artifacts |} |}.
Proof.
  apply (failed_prediction_is_answered_500
           Frame frame (with_model (counting_model (Raise ValueError)))
           (counting_model (Raise ValueError)) example_post example_input
           (PyList [PyStr "raw_mill_load"])
           ([[example_input]], PyList [PyStr "raw_mill_load"])
           ValueError 1%nat); try settle.
  exact example_post_accepted.
Defined.

(** A model whose [predict] is interrupted. *)
Lemma interrupt_during_prediction_propagates_witness :
  result (predict_telemetry Frame frame
            (with_model (counting_model (Raise KeyboardInterrupt))) example_post) =
    Raise KeyboardInterrupt /\
  trace (predict_telemetry Frame frame
           (with_model (counting_model (Raise KeyboardInterrupt))) example_post) =
    [ReadJson; Predict].
Proof.
  apply (interrupt_during_prediction_propagates
           Frame frame (with_model (counting_model (Raise KeyboardInterrupt)))
           (counting_model (Raise KeyboardInterrupt)) example_post example_input
           (PyList [PyStr "raw_mill_load"])
           ([[example_input]], PyList [PyStr "raw_mill_load"])
           KeyboardInterrupt 1%nat); try settle.
  exact example_post_accepted.
Defined.

(** The deployment with a [pd.DataFrame] that raises [ValueError]. *)
Lemma failed_frame_is_answered_500_witness :
  predict_telemetry Frame no_frame example_globals example_post =
    {| result := Ok {| content := Text "Internal Server Error: Prediction failed.";
                       status := 500;
                       response_headers := cors_headers |};
       trace := [ReadJson; PrintError "Error during prediction: "];
       after := example_globals |}.
Proof.
  apply (failed_frame_is_answered_500
           Frame no_frame example_globals example_model example_post example_input
           (PyList [PyStr "raw_mill_load"]) ValueError); try settle.
  exact example_post_accepted.
Defined.

(** The POST of "120.5" on the loaded deployment. *)
Lemma accepted_request_is_answered_200_or_500_witness :
  (exists d : dict,
     result (predict_telemetry Frame frame example_globals example_post) =
       Ok {| content := Mapping d; status := 200; response_headers := cors_headers |}) \/
  result (predict_telemetry Frame frame example_globals example_post) =
    Ok {| content := Text "Internal Server Error: Prediction failed.";
          status := 500; response_headers := cors_headers |}.
Proof.
  apply (accepted_request_is_answered_200_or_500
           Frame frame example_globals example_model example_post example_input).
  - discriminate.
  - reflexivity.
  - exact example_post_accepted.
  - intros columns e H. discriminate H.
  - intros df e s' H. discriminate H.
Defined.

(** An OPTIONS request on the loaded deployment. *)
Lemma status_204_exactly_for_options_witness :
  status (respond (Text "") 204) = 204 <->
  method {| method := "OPTIONS"; get_json := PyNone; args := [] |} = "OPTIONS".
Proof.
  apply (status_204_exactly_for_options
           Frame frame example_globals
           {| method := "OPTIONS"; get_json := PyNone; args := [] |}
           (respond (Text "") 204)).
  reflexivity.
Defined.

(** A model beside a descriptor that is [None]. *)
Lemma model_not_loaded_exactly_when_unloaded_witness :
  result (predict_telemetry Frame frame (with_artifacts PyNone) example_post) =
    Ok {| content := Text "Internal Server Error: Model not loaded";
          status := 500; response_headers := cors_headers |}
  <-> (model (with_artifacts PyNone) = None \/ artifacts (with_artifacts PyNone) = PyNone).
Proof.
  apply (model_not_loaded_exactly_when_unloaded
           Frame frame (with_artifacts PyNone) example_post).
  discriminate.
Defined.

(** A GET without a query on the loaded deployment. *)
Lemma rejected_request_does_not_reach_the_model_witness :
  loaded example_globals /\
  ~ In Predict (trace (predict_telemetry Frame frame example_globals (get []))) /\
  after (predict_telemetry Frame frame example_globals (get [])) = example_globals /\
  is_text (Text "Bad Request: Missing 'raw_mill_load' parameter.") = true.
Proof.
  apply (rejected_request_does_not_reach_the_model
           Frame frame example_globals (get [])
           (respond (Text "Bad Request: Missing 'raw_mill_load' parameter.") 400)).
  - reflexivity.
  - reflexivity.
Defined.

(** The POST of "120.5" on the loaded deployment. *)
Lemma mapping_exactly_with_200_witness :
  exists r : response,
    result (predict_telemetry Frame frame example_globals example_post) = Ok r /\
    status r = 200 /\
    (status r = 200 <-> is_text (content r) = false) /\
    (status r = 200 ->
     trace (predict_telemetry Frame frame example_globals example_post) =
       (snd (read_data example_post) ++ [Predict])%list).
Proof.
  eexists. split; [evaluate |]. split; [reflexivity |].
  apply (mapping_exactly_with_200 Frame frame example_globals example_post).
  evaluate.
Defined.

(** A descriptor that names the output [a] twice. *)
Lemma prediction_keys_are_distinct_output_names_witness :
  exists (r : response) (d : dict),
    result (predict_telemetry Frame frame
              (with_artifacts
                 (PyDict [("input_features", PyList [PyStr "raw_mill_load"]);
                          ("output_features", PyList [PyStr "a"; PyStr "b"; PyStr "a"])]))
              example_post) = Ok r /\
    content r = Mapping d /\
    keys d = ["a"; "b"] /\
    NoDup (keys d) /\
    exists outs names,
      getitem_str
        (artifacts
           (with_artifacts
              (PyDict [("input_features", PyList [PyStr "raw_mill_load"]);
                       ("output_features", PyList [PyStr "a"; PyStr "b"; PyStr "a"])])))
        "output_features" = Ok outs /\
      py_iter outs = Ok names /\
      (List.length d <= List.length names)%nat /\
      forall k, In k (keys d) -> In (PyStr k) names.
Proof.
  eexists. eexists. split; [evaluate |]. split; [reflexivity |]. split; [reflexivity |].
  eapply (prediction_keys_are_distinct_output_names
            Frame frame
            (with_artifacts
               (PyDict [("input_features", PyList [PyStr "raw_mill_load"]);
                        ("output_features", PyList [PyStr "a"; PyStr "b"; PyStr "a"])]))
            example_post).
  - evaluate.
  - reflexivity.
Defined.

(** A model that returns two values for the twelve output features. *)
Lemma short_row_gives_fewer_keys_witness :
  List.length example_outputs = 12%nat /\
  exists d : dict,
    result (predict_telemetry Frame frame
              (with_model (counting_model
                             (Ok (PyList [PyList [PyFloat example_input; PyInt 3]]))))
              example_post) =
      Ok {| content := Mapping d; status := 200; response_headers := cors_headers |} /\
    keys d = firstn (List.length [PyFloat example_input; PyInt 3]) example_outputs /\
    forall k,
      In k (skipn (List.length [PyFloat example_input; PyInt 3]) example_outputs) ->
      lookup k d = None.
Proof.
  split; [reflexivity |].
  apply (short_row_gives_fewer_keys
           Frame frame
           (with_model (counting_model
                          (Ok (PyList [PyList [PyFloat example_input; PyInt 3]]))))
           (counting_model (Ok (PyList [PyList [PyFloat example_input; PyInt 3]])))
           example_post example_input 1%nat
           [PyFloat example_input; PyInt 3] example_outputs).
  - discriminate.
  - reflexivity.
  - exact example_post_accepted.
  - reflexivity.
  - exact example_outputs_distinct.
  - apply counting_model_predicts.
  - simpl. repeat (constructor; [eexists; evaluate |]). constructor.
Defined.

(** A model that returns [None] for the second output feature. *)
Lemma value_that_is_no_number_is_answered_500_witness :
  predict_telemetry Frame frame
                    (with_model (counting_model
                                   (Ok (PyList [PyList [PyFloat example_input; PyNone]]))))
                    example_post =
    {| result := Ok {| content := Text "Internal Server Error: Prediction failed.";
                       status := 500;
                       response_headers := cors_headers |};
       trace := [ReadJson; Predict; PrintError "Error during prediction: "];
       after := {| model :=
                     Some {| St := nat; st := 1%nat;
                             predict :=
                               predict (counting_model
                                          (Ok (PyList [PyList [PyFloat example_input;
                                                               PyNone]]))) |};
                   artifacts := example_artifacts |} |}.
Proof.
  apply (value_that_is_no_number_is_answered_500
           Frame frame
           (with_model (counting_model
                          (Ok (PyList [PyList [PyFloat example_input; PyNone]]))))
           (counting_model (Ok (PyList [PyList [PyFloat example_input; PyNone]])))
           example_post example_input 1%nat
           [PyFloat example_input; PyNone] example_outputs
           "motor_vibration_y" PyNone).
  - discriminate.
  - reflexivity.
  - exact example_post_accepted.
  - reflexivity.
  - exact example_outputs_distinct.
  - apply counting_model_predicts.
  - simpl. right. left. reflexivity.
  - reflexivity.
Defined.

(** A model that returns NaN, minus infinity and the [int] 7. *)
Lemma non_finite_predictions_are_served_witness :
  result (predict_telemetry Frame frame
            (with_model (counting_model
                           (Ok (PyList [PyList [PyFloat Float64.nan;
                                                PyFloat (Float64.inf true);
                                                PyInt 7]]))))
            example_post) =
    Ok {| content := Mapping [("motor_vibration_x", PyFloat Float64.nan);
                              ("motor_vibration_y", PyFloat (Float64.inf true));
                              ("outlet_pressure", PyInt 7)];
          status := 200;
          response_headers := cors_headers |}.
Proof.
  apply (non_finite_predictions_are_served
           Frame frame
           (with_model (counting_model
                          (Ok (PyList [PyList [PyFloat Float64.nan;
                                               PyFloat (Float64.inf true);
                                               PyInt 7]]))))
           (counting_model (Ok (PyList [PyList [PyFloat Float64.nan;
                                                PyFloat (Float64.inf true);
                                                PyInt 7]])))
           example_post example_input 1%nat
           [PyFloat Float64.nan; PyFloat (Float64.inf true); PyInt 7] example_outputs).
  - discriminate.
  - reflexivity.
  - exact example_post_accepted.
  - reflexivity.
  - exact example_outputs_distinct.
  - apply counting_model_predicts.
  - repeat constructor.
Defined.

(** A POST whose body is an empty list, on the loaded deployment. *)
Lemma every_request_is_answered_witness :
  exists r : response,
    result (predict_telemetry Frame frame example_globals (post (PyList []))) = Ok r.
Proof.
  apply (every_request_is_answered
           Frame frame example_globals (post (PyList [])) [PyStr "raw_mill_load"]).
  - reflexivity.
  - intros data columns e H. discriminate H.
  - intros m s df e s' Hm. injection Hm as Hm. subst m. intros H. discriminate H.
Defined.

(** A descriptor whose first input feature is the number 0. *)
Lemma input_feature_that_is_no_text_witness :
  exists r : response,
    predict_telemetry Frame frame
      (with_artifacts (PyDict [("input_features", PyList [PyInt 0])])) example_get =
      {| result := Ok r;
         trace := snd (read_data example_get);
         after := with_artifacts (PyDict [("input_features", PyList [PyInt 0])]) |} /\
    status r = 400.
Proof.
  apply (input_feature_that_is_no_text
           Frame frame
           (with_artifacts (PyDict [("input_features", PyList [PyInt 0])]))
           example_model example_get (PyList [PyInt 0]) (PyInt 0)).
  - discriminate.
  - reflexivity.
  - reflexivity.
  - reflexivity.
  - intros s. discriminate.
  - reflexivity.
Defined.

(** A cold start that finds the model and an artifacts file that holds
    [null]. *)
Lemma load_reports_success_without_a_context_witness :
  cold_start Frame (deployment (Ok (Some example_model)) (Ok PyNone)) =
    (Ok true, [Print "Model and artifacts loaded successfully."],
     {| model := Some example_model; artifacts := PyNone |}) /\
  forall req : request,
    method req <> "OPTIONS" ->
    result (predict_telemetry Frame frame
              {| model := Some example_model; artifacts := PyNone |} req) =
      Ok {| content := Text "Internal Server Error: Model not loaded";
            status := 500;
            response_headers := cors_headers |}.
Proof.
  apply (load_reports_success_without_a_context
           Frame frame (deployment (Ok (Some example_model)) (Ok PyNone))
           (Some example_model) "{}" PyNone).
  - reflexivity.
  - reflexivity.
  - reflexivity.
  - right. reflexivity.
Defined.

(** A reload that finds a new model and no artifacts file, on globals
    that hold another model. *)
Lemma failed_load_keeps_the_artifacts_witness :
  artifacts (snd (load_model Frame example_environment
                             (with_model (counting_model (Raise ValueError))))) =
    example_artifacts /\
  (joblib_load Frame example_environment MODEL_FILE =
     Raise (FileNotFoundError ARTIFACTS_FILE) ->
   snd (load_model Frame example_environment
                   (with_model (counting_model (Raise ValueError)))) =
     with_model (counting_model (Raise ValueError))) /\
  (forall m, joblib_load Frame example_environment MODEL_FILE = Ok m ->
             model (snd (load_model Frame example_environment
                                    (with_model (counting_model (Raise ValueError))))) = m).
Proof.
  apply (failed_load_keeps_the_artifacts
           Frame example_environment (with_model (counting_model (Raise ValueError)))
           (FileNotFoundError ARTIFACTS_FILE)).
  right. exists (Some example_model). split; [reflexivity |]. left. reflexivity.
Defined.

(** A cold start that finds no artifacts file. *)
Lemma missing_file_is_reported_by_name_witness :
  fst (cold_start Frame example_environment) =
    (Ok false,
     [Print "ERROR: Missing file model_artifacts.json. Make sure model.joblib and model_artifacts.json are deployed."]).
Proof.
  apply (missing_file_is_reported_by_name
           Frame example_environment "model_artifacts.json").
  right. exists (Some example_model). split; [reflexivity |]. left. reflexivity.
Defined.

(** A cold start that finds both files, then a POST, a GET without a
    query and a GET. *)
Lemma loaded_context_serves_every_request_witness :
  loaded (snd (cold_start Frame (deployment (Ok (Some example_model))
                                            (Ok example_artifacts)))) /\
  loaded (serve Frame frame
                (snd (cold_start Frame (deployment (Ok (Some example_model))
                                                   (Ok example_artifacts))))
                [example_post; get []; example_get]) /\
  forall req,
    method req <> "OPTIONS" ->
    result (predict_telemetry Frame frame
              (serve Frame frame
                     (snd (cold_start Frame (deployment (Ok (Some example_model))
                                                        (Ok example_artifacts))))
                     [example_post; get []; example_get]) req)
    <> Ok (respond (Text "Internal Server Error: Model not loaded") 500).
Proof.
  apply (loaded_context_serves_every_request
           Frame frame (deployment (Ok (Some example_model)) (Ok example_artifacts))
           example_model "{}" example_artifacts [example_post; get []; example_get]).
  - reflexivity.
  - reflexivity.
  - reflexivity.
  - discriminate.
Defined.
